(** * The ReAct step loop of onetwo/agents/react.py

    A shallow embedding of the reply parser [react_parse], of the step
    function [_sample_single_next_step] and of the termination and output
    functions of [ReActAgent], followed by the properties the specification
    states about them.

    Conventions.
    - A Python [str] is a [string]; its characters are code points below 256.
    - A Python value of type [Any] is a [PyValue]; [PyNone] is Python's [None],
      so "the observation is absent" reads [observation s = PyNone].
    - A Python call that may raise returns a [Result].
    - The two awaited calls of the step function (the prompt and the tool
      environment) are the two request nodes of the [Exec] tree. *)

From Stdlib Require Import String Ascii List ZArith Bool Arith Lia DecimalString.
Import ListNotations.
Open Scope string_scope.

(** ** Python strings *)

Module PyStr.

Definition nl : string := String "010"%char EmptyString.
Definition dquote : string := String "034"%char EmptyString.

(** [str.isspace] on the code points below 256. *)
Definition is_space (c : ascii) : bool :=
  let n := nat_of_ascii c in
  (((9 <=? n) && (n <=? 13)) || ((28 <=? n) && (n <=? 32))
   || (n =? 133) || (n =? 160))%nat.

Fixpoint lstrip (s : string) : string :=
  match s with
  | EmptyString => EmptyString
  | String c r => if is_space c then lstrip r else s
  end.

Definition is_empty (s : string) : bool :=
  match s with EmptyString => true | String _ _ => false end.

Fixpoint rstrip (s : string) : string :=
  match s with
  | EmptyString => EmptyString
  | String c r =>
      let r' := rstrip r in
      if is_space c && is_empty r' then EmptyString else String c r'
  end.

(** [s.strip()] *)
Definition strip (s : string) : string := rstrip (lstrip s).

(** [s[i:j]] for [0 <= i] and [0 <= j]: empty as soon as [j <= i]. *)
Definition slice (s : string) (i j : nat) : string := substring i (j - i) s.

(** [s[i:]] *)
Definition slice_from (s : string) (i : nat) : string :=
  substring i (String.length s - i) s.

(** [s.split(sep)[0]] for a non-empty [sep]: what precedes the first
    occurrence of [sep], the whole of [s] when there is none. *)
Definition split_head (sep s : string) : string :=
  match index 0 sep s with
  | Some i => substring 0 i s
  | None => s
  end.

(** Truth value of a string: non-empty. *)
Definition truthy (s : string) : bool := negb (is_empty s).

End PyStr.
Import PyStr.

(** ** Python values and exceptions *)

Inductive PyValue : Type :=
| PyNone
| PyStr (s : string)
| PyBool (b : bool)
| PyInt (z : Z)
| PyObject (str_form : string).

(** [str(v)] *)
Definition py_str (v : PyValue) : string :=
  match v with
  | PyNone => "None"
  | PyStr s => s
  | PyBool true => "True"
  | PyBool false => "False"
  | PyInt z => NilZero.string_of_int (Z.to_int z)
  | PyObject f => f
  end.

Inductive PyExn : Type :=
| ValueError (msg : string)
| OtherException (kind msg : string).

Inductive Result (A : Type) : Type :=
| Return (a : A)
| Raise (e : PyExn).
Arguments Return {A} a.
Arguments Raise {A} e.

(** [try: body  except ValueError as e: handler(str(e))] *)
Definition try_except_ValueError {A} (body : Result A) (handler : string -> Result A)
  : Result A :=
  match body with
  | Raise (ValueError msg) => handler msg
  | _ => body
  end.

(** ** Step records and trajectory states *)

(** The rendering tags of [llm_tool_use.ArgumentFormat] that the agent file
    names, and any other tag by its name. *)
Inductive ArgumentFormat : Type :=
| PYTHON
| YAML_CODE
| OtherFormat (tag : string).

(** [llm_tool_use.FunctionCall]; [kwargs] keeps the insertion order of the
    Python dict. *)
Record FunctionCall : Type := mkFunctionCall {
  function_name : string;
  args : list PyValue;
  kwargs : list (string * PyValue)
}.

Record ReActStep : Type := mkReActStep {
  is_finished : bool;
  thought : string;
  action : option FunctionCall;
  observation : PyValue;
  fmt : option ArgumentFormat
}.

(** [ReActStep()] with every field at its default. *)
Definition default_step : ReActStep :=
  {| is_finished := false; thought := ""; action := None;
     observation := PyNone; fmt := None |}.

Definition set_observation (s : ReActStep) (v : PyValue) : ReActStep :=
  {| is_finished := is_finished s; thought := thought s; action := action s;
     observation := v; fmt := fmt s |}.

(** Modelled from the spec: the trajectory state [UpdateListState] of
    agents/base.py, which is not among the sources: the task input and the
    ordered, append-only list of steps. *)
Record ReActState : Type := mkReActState {
  inputs : string;
  updates : list ReActStep
}.

(** Modelled from the spec: appending the returned step to [updates]
    (section 4.2, item 6); the operator lives in agents/base.py. *)
Definition append_update (state : ReActState) (step : ReActStep) : ReActState :=
  {| inputs := inputs state; updates := updates state ++ [step] |}.

(** ** The reply parser *)

(** What [parse_and_consume_call] returns, without the two components that
    [react_parse] discards. *)
Definition ExtractedCall : Type :=
  (string * list PyValue * list (string * PyValue) * ArgumentFormat)%type.

Section Parser.

(** [re.search(pattern, text)]: the span of the first match, if any. *)
Variable re_search : string -> string -> option (nat * nat).
(** [llm_tool_use.parse_and_consume_call] on an empty template context. *)
Variable parse_and_consume_call : string -> Result ExtractedCall.
(** [constants.ERROR_STRING] *)
Variable ERROR_STRING : string.

(** [m.span()] when the marker matched, [(len(text), len(text))] if not. *)
Definition span_or_end (m : option (nat * nat)) (reply_text : string)
  : nat * nat :=
  match m with
  | Some sp => sp
  | None => (String.length reply_text, String.length reply_text)
  end.

Definition act_span (action_pattern reply_text : string) : nat * nat :=
  span_or_end (re_search action_pattern reply_text) reply_text.
Definition thought_span (thought_pattern reply_text : string) : nat * nat :=
  span_or_end (re_search thought_pattern reply_text) reply_text.
Definition finish_span (finish_pattern reply_text : string) : nat * nat :=
  span_or_end (re_search finish_pattern reply_text) reply_text.

(** The final answer of the finish branch. *)
Definition final_answer_of (reply_text : string) (finish_end : nat)
    (final_stop_sequence : option string) : string :=
  let final_answer := strip (slice_from reply_text finish_end) in
  match final_stop_sequence with
  | Some sep =>
      if truthy sep then strip (split_head sep final_answer) else final_answer
  | None => final_answer
  end.

(** The body of the [try] block. *)
Definition react_parse_body (reply_text : string)
    (action_pattern thought_pattern finish_pattern : string)
    (final_stop_sequence : option string) : Result ReActStep :=
  let '(act_start, act_end) := act_span action_pattern reply_text in
  let '(thought_start, thought_end) := thought_span thought_pattern reply_text in
  let '(finish_start, finish_end) := finish_span finish_pattern reply_text in
  if (act_start <? finish_start)%nat then
    let thought_content :=
      if (thought_start <? act_start)%nat
      then strip (slice reply_text thought_end act_start) else "" in
    let part_after_act := strip (slice_from reply_text act_end) in
    match parse_and_consume_call part_after_act with
    | Return (fn, args, kwargs, fmt) =>
        Return {| is_finished := String.eqb fn "Finish";
                  thought := thought_content;
                  action := Some (mkFunctionCall fn args kwargs);
                  observation := PyNone;
                  fmt := Some fmt |}
    | Raise e => Raise e
    end
  else if (finish_start <? act_start)%nat then
    let thought_content :=
      if (thought_start <? finish_start)%nat
      then strip (slice reply_text thought_end finish_start) else "" in
    Return {| is_finished := true;
              thought := thought_content;
              action := None;
              observation :=
                PyStr (final_answer_of reply_text finish_end final_stop_sequence);
              fmt := None |}
  else
    Raise (ValueError
             ("Didn't find " ++ action_pattern ++ " or " ++ finish_pattern)).

(** The step built by the [except ValueError] clause. *)
Definition error_step (msg : string) : ReActStep :=
  {| is_finished := false; thought := ""; action := None;
     observation := PyStr (ERROR_STRING ++ ": " ++ msg); fmt := None |}.

Definition react_parse (reply_text : string)
    (action_pattern thought_pattern finish_pattern : string)
    (final_stop_sequence : option string) : Result ReActStep :=
  try_except_ValueError
    (react_parse_body reply_text action_pattern thought_pattern
       finish_pattern final_stop_sequence)
    (fun msg => Return (error_step msg)).

End Parser.

(** The default values of the keyword arguments of [react_parse]. *)
Definition default_action_pattern : string := "\[Act\]:".
Definition default_thought_pattern : string := "\[Thought\]:".
Definition default_finish_pattern : string := "\[Finish\]:".
Definition default_final_stop_sequence : option string := Some (nl ++ nl).

(** [re.search] for the patterns that are a literal text, written with
    ordinary characters and backslash-escaped punctuation, as the three
    default markers are. *)
Fixpoint unescape (pattern : string) : string :=
  match pattern with
  | EmptyString => EmptyString
  | String "\"%char (String c r) => String c (unescape r)
  | String c r => String c (unescape r)
  end.

Definition re_search_literal (pattern text : string) : option (nat * nat) :=
  let lit := unescape pattern in
  match index 0 lit text with
  | Some i => Some (i, i + String.length lit)
  | None => None
  end.

(** A stand-in for the tool-call extractor, for the statements that need a
    concrete one. It reads [name("text")], a name applied to one double-quoted
    string, as a call in the PYTHON format, and rejects any other text with a
    [ValueError]. *)
Definition quoted_call_extractor (text : string) : Result ExtractedCall :=
  match index 0 ("(" ++ dquote) text with
  | Some i =>
      let rest := slice_from text (i + 2) in
      match index 0 (dquote ++ ")") rest with
      | Some j =>
          if (j + 2 =? String.length rest)%nat
          then Return (substring 0 i text, [PyStr (substring 0 j rest)], [], PYTHON)
          else Raise (ValueError ("Unexpected text after the call: " ++ text))
      | None => Raise (ValueError ("Unterminated call: " ++ text))
      end
  | None => Raise (ValueError ("Not a call: " ++ text))
  end.

(** [react_parse] with its default keyword arguments, on literal markers. *)
Definition react_parse_default (ERROR_STRING reply_text : string)
  : Result ReActStep :=
  react_parse re_search_literal quoted_call_extractor ERROR_STRING reply_text
    default_action_pattern default_thought_pattern default_finish_pattern
    default_final_stop_sequence.

(** ** The step function *)

Record Tool : Type := mkTool {
  tool_name : string;
  tool_description : string;
  tool_example : option string
}.

Record PythonToolUseEnvironmentConfig : Type := mkEnvConfig {
  tools : list Tool
}.

Record PythonToolUseEnvironment : Type := mkEnv {
  config : PythonToolUseEnvironmentConfig
}.

(** The keyword arguments of one call of the prompt. *)
Record PromptRequest : Type := mkPromptRequest {
  req_tools : list Tool;
  req_exemplars : list ReActState;
  req_stop_prefix : string;
  req_stop_sequences : list string;
  req_state : ReActState;
  req_force_finish : bool
}.

(** A coroutine with two kinds of awaited calls: [await self.prompt(...)] and
    [await environment.run_tool(...)]. [Done] is its [return] or [raise]. An
    exception raised by an awaited call is not caught by the coroutine. *)
Inductive Exec (A : Type) : Type :=
| Done (r : Result A)
| AwaitPrompt (req : PromptRequest) (k : string -> Exec A)
| AwaitRunTool (name : string) (tool_args : list PyValue)
    (tool_kwargs : list (string * PyValue)) (k : PyValue -> Exec A).
Arguments Done {A} r.
Arguments AwaitPrompt {A} req k.
Arguments AwaitRunTool {A} name tool_args tool_kwargs k.

(** The flag of a step, under a name that the method [ReActAgent.is_finished]
    does not hide. *)
Abbreviation step_is_finished := is_finished (only parsing).

Module ReActAgent.

(** The fields of the dataclass. The [prompt] field is the awaited call
    [AwaitPrompt] of the step function, answered by the world of a run. *)
Record t : Type := mk {
  parse : string -> Result ReActStep;
  exemplars : list ReActState;
  environment_config : PythonToolUseEnvironmentConfig;
  max_steps : Z;
  stop_prefix : string
}.

Definition _get_stop_sequences (self : t) : list string :=
  if truthy (stop_prefix self)
  then ["[" ++ stop_prefix self]
  else ["[Question]"; "[Observe]"].

Definition initialize_state (self : t) (inputs : string) : ReActState :=
  {| inputs := inputs; updates := [] |}.

(** The keyword arguments that the step function passes to [self.prompt]. *)
Definition prompt_kwargs (self : t) (state : ReActState)
    (env : PythonToolUseEnvironment) (force_finish : bool) : PromptRequest :=
  {| req_tools := tools (config env);
     req_exemplars := exemplars self;
     req_stop_prefix := stop_prefix self;
     req_stop_sequences := _get_stop_sequences self;
     req_state := state;
     req_force_finish := force_finish |}.

Definition _sample_single_next_step (self : t) (state : ReActState)
    (environment : option PythonToolUseEnvironment) : Exec ReActStep :=
  match environment with
  | None =>
      Done (Raise (ValueError "Environment must be specified for this agent."))
  | Some env =>
      let force_finish :=
        (Z.of_nat (List.length (updates state)) >=? max_steps self)%Z in
      AwaitPrompt (prompt_kwargs self state env force_finish)
        (fun llm_reply =>
           let llm_reply := strip llm_reply ++ nl in
           if force_finish then
             Done (Return {| is_finished := true;
                             thought := "";
                             action := None;
                             observation := PyStr (strip llm_reply);
                             fmt := None |})
           else
             match parse self llm_reply with
             | Raise e => Done (Raise e)
             | Return next_step =>
                 (* [if next_step.action:] a FunctionCall object is true *)
                 match action next_step with
                 | Some a =>
                     AwaitRunTool (function_name a) (args a) (kwargs a)
                       (fun v => Done (Return (set_observation next_step v)))
                 | None => Done (Return next_step)
                 end
             end)
  end.

(** [state.updates[-1]] under the guard [state.updates]: the last step of a
    non-empty list. *)
Definition last_update (state : ReActState) : option ReActStep :=
  List.last (map Some (updates state)) None.

(** [bool(state.updates and state.updates[-1].is_finished)] *)
Definition is_finished (self : t) (state : ReActState) : bool :=
  match last_update state with
  | Some last_step => step_is_finished last_step
  | None => false
  end.

Definition extract_output (self : t) (state : ReActState) : string :=
  let answer :=
    match last_update state with
    | Some last_step =>
        if step_is_finished last_step then observation last_step else PyNone
    | None => PyNone
    end in
  py_str answer.

End ReActAgent.

(** ** Running the coroutine against its collaborators *)

(** The calls that one run makes, in order. *)
Inductive Event : Type :=
| PromptCalled (req : PromptRequest)
| ToolCalled (name : string) (tool_args : list PyValue)
    (tool_kwargs : list (string * PyValue)).

Definition is_tool_call (e : Event) : bool :=
  match e with ToolCalled _ _ _ => true | PromptCalled _ => false end.

(** Modelled from the spec: the driving loop of agents/base.py, which is not
    among the sources: "repeatedly calling advance while state is RUNNING",
    each iteration appending the returned step. *)
Inductive LoopResult : Type :=
| Finished (state : ReActState) (iterations : nat)
| Aborted (e : PyExn) (state : ReActState) (iterations : nat)
| StillRunning (state : ReActState) (iterations : nat).

Section Run.

(** The collaborators: the language model behind the prompt and the tool
    environment, each a transition on some state of the world, and each
    free to raise. *)
Variable World : Type.
Variable prompt_handler : PromptRequest -> World -> Result string * World.
Variable tool_handler :
  string -> list PyValue -> list (string * PyValue) -> World
  -> Result PyValue * World.

Fixpoint run {A : Type} (p : Exec A) (w : World)
  : Result A * list Event * World :=
  match p with
  | Done r => (r, [], w)
  | AwaitPrompt req k =>
      match prompt_handler req w with
      | (Return reply, w') =>
          let '(r, evs, w'') := run (k reply) w' in
          (r, PromptCalled req :: evs, w'')
      | (Raise e, w') => (Raise e, [PromptCalled req], w')
      end
  | AwaitRunTool name tool_args tool_kwargs k =>
      match tool_handler name tool_args tool_kwargs w with
      | (Return v, w') =>
          let '(r, evs, w'') := run (k v) w' in
          (r, ToolCalled name tool_args tool_kwargs :: evs, w'')
      | (Raise e, w') => (Raise e, [ToolCalled name tool_args tool_kwargs], w')
      end
  end.

Variable agent : ReActAgent.t.
Variable environment : option PythonToolUseEnvironment.

(** Modelled from the spec: one iteration of the driving loop (section 4.2):
    the step function is run and the step it returns is appended. *)
Definition advance (state : ReActState) (w : World)
  : Result ReActState * list Event * World :=
  match run (ReActAgent._sample_single_next_step agent state environment) w with
  | (Return step, evs, w') => (Return (append_update state step), evs, w')
  | (Raise e, evs, w') => (Raise e, evs, w')
  end.

(** Modelled from the spec: the driving loop, with [fuel] bounding the
    number of iterations and [done] counting those made so far. *)
Fixpoint run_loop (fuel : nat) (state : ReActState) (w : World) (done : nat)
  : LoopResult :=
  if ReActAgent.is_finished agent state then Finished state done
  else
    match fuel with
    | O => StillRunning state done
    | S fuel' =>
        match advance state w with
        | (Return state', _, w') => run_loop fuel' state' w' (S done)
        | (Raise e, _, _) => Aborted e state done
        end
    end.

(** Modelled from the spec: the trajectories that the driving loop can
    reach: the initial state, and any state obtained from a reachable state
    that is not FINISHED by one iteration. *)
Inductive reachable : ReActState -> Prop :=
| reachable_init (inputs : string) :
    reachable (ReActAgent.initialize_state agent inputs)
| reachable_advance (state state' : ReActState) (w w' : World)
    (evs : list Event) :
    reachable state ->
    ReActAgent.is_finished agent state = false ->
    advance state w = (Return state', evs, w') ->
    reachable state'.

(** The collaborators and the parser never raise. *)
Definition collaborators_return : Prop :=
  (forall req w, exists reply w', prompt_handler req w = (Return reply, w')) /\
  (forall name tool_args tool_kwargs w,
     exists v w', tool_handler name tool_args tool_kwargs w = (Return v, w')) /\
  (forall text, exists step, ReActAgent.parse agent text = Return step).

End Run.

(** A world for concrete runs: the language model answers from a script of
    replies, with the empty reply once the script is over, and every tool
    returns a text that names it. *)
Module Scripted.

Definition World : Type := list string.

Definition prompt_handler (req : PromptRequest) (w : World)
  : Result string * World :=
  match w with
  | reply :: w' => (Return reply, w')
  | [] => (Return "", [])
  end.

Definition tool_handler (name : string) (tool_args : list PyValue)
    (tool_kwargs : list (string * PyValue)) (w : World)
  : Result PyValue * World :=
  (Return (PyStr ("result of " ++ name)), w).

Definition environment : PythonToolUseEnvironment :=
  {| config := {| tools := [mkTool "Search" "Looks a question up." None] |} |}.

(** An agent with the default parser and a budget of [max_steps] steps. *)
Definition agent (max_steps : Z) : ReActAgent.t :=
  {| ReActAgent.parse := react_parse_default "#ERROR#";
     ReActAgent.exemplars := [];
     ReActAgent.environment_config := config environment;
     ReActAgent.max_steps := max_steps;
     ReActAgent.stop_prefix := "" |}.

End Scripted.

(** Replies used as concrete inputs. *)
Definition reply_search : string :=
  "[Thought]: t" ++ nl ++ "[Act]: Search(" ++ dquote ++ "x" ++ dquote ++ ")" ++ nl.
Definition reply_finish : string := "[Finish]: 238 meters" ++ nl ++ nl.
Definition reply_unsure : string := "I am not sure.".
Definition reply_blank_line : string := "[Finish]:" ++ nl ++ nl ++ "42" ++ nl.
Definition reply_bad_call : string :=
  "[Thought]: hmm" ++ nl ++ "[Act]: Search(x" ++ nl.
Definition reply_finish_call : string :=
  "[Thought]: done" ++ nl ++ "[Act]: Finish(" ++ dquote ++ "42" ++ dquote ++ ")" ++ nl.

(** The finish step that [reply_finish] parses to. *)
Definition step_238_meters : ReActStep :=
  {| is_finished := true; thought := ""; action := None;
     observation := PyStr "238 meters"; fmt := None |}.

(** The final answer as the specification words it: the text after the finish
    marker, truncated at the first occurrence of the stop sequence and
    trimmed. *)
Definition final_answer_as_stated (reply_text : string) (finish_end : nat)
    (sep : string) : string :=
  strip (split_head sep (slice_from reply_text finish_end)).

(** The invariant of the trajectory: a finished step has no successor. *)
Definition finished_only_last (l : list ReActStep) : Prop :=
  forall earlier x later,
    l = (earlier ++ x :: later)%list -> is_finished x = true -> later = [].

(** ** The markers of the prompt template *)

(** The marker of a question turn in [DEFAULT_REACT_PROMPT_TEXT]:
    [[{{ stop_prefix }}Question]]. *)
Definition question_marker (stop_prefix : string) : string :=
  "[" ++ stop_prefix ++ "Question]".

(** The marker of an observation turn in [DEFAULT_REACT_PROMPT_TEXT]:
    [[{{ stop_prefix }}Observe]]. *)
Definition observe_marker (stop_prefix : string) : string :=
  "[" ++ stop_prefix ++ "Observe]".

(** An extractor that fails with an exception that is not a [ValueError],
    for the statements about exceptions that [react_parse] does not catch. *)
Definition failing_extractor (text : string) : Result ExtractedCall :=
  Raise (OtherException "SyntaxError" ("invalid syntax: " ++ text)).

(** ** Line handling of the Python library *)

Module Textwrap.

(** The line boundaries of [str.splitlines] among the code points below
    256: line feed, vertical tab, form feed, carriage return, the file, group
    and record separators, and next line. *)
Definition is_line_boundary (c : ascii) : bool :=
  let n := nat_of_ascii c in
  (((10 <=? n) && (n <=? 13)) || ((28 <=? n) && (n <=? 30)) || (n =? 133))%nat.

(** [s.splitlines(True)]: the lines of [s], each with its line break; a
    carriage return followed by a line feed is one break. *)
Fixpoint splitlines (s : string) : list string :=
  match s with
  | EmptyString => []
  | String c r =>
      if Ascii.eqb c "013"%char then
        match r with
        | String c' r' =>
            if Ascii.eqb c' "010"%char
            then String c (String c' EmptyString) :: splitlines r'
            else String c EmptyString :: splitlines r
        | EmptyString => [String c EmptyString]
        end
      else if is_line_boundary c then String c EmptyString :: splitlines r
      else
        match splitlines r with
        | [] => [String c EmptyString]
        | line :: lines => String c line :: lines
        end
  end.

(** The text holds no line boundary. *)
Fixpoint has_no_line_break (s : string) : bool :=
  match s with
  | EmptyString => true
  | String c r => negb (is_line_boundary c) && has_no_line_break r
  end.

(** [''.join(lines)] *)
Definition join (lines : list string) : string := String.concat "" lines.

(** [textwrap.indent(text, prefix)] with the default predicate: the prefix is
    added to the lines that do not consist of white space only. *)
Definition indent (text prefix : string) : string :=
  join (map (fun line => if truthy (strip line) then prefix ++ line else line)
          (splitlines text)).

(** A line of text: one line feed, at its end, and some character that is
    not white space. *)
Definition is_text_line (line : string) : Prop :=
  exists body,
    line = body ++ nl /\
    has_no_line_break body = true /\
    truthy (strip line) = true.

End Textwrap.

(** ** onetwo/core/results.py *)

Module Results.

(** A [dict[str, Any]], in insertion order. *)
Definition Dict : Type := list (string * PyValue).

(** [key in d] *)
Definition dict_contains (key : string) (d : Dict) : bool :=
  existsb (fun kv => String.eqb (fst kv) key) d.

(** [d.get(key)] *)
Definition dict_get (key : string) (d : Dict) : option PyValue :=
  match find (fun kv => String.eqb (fst kv) key) d with
  | Some kv => Some (snd kv)
  | None => None
  end.

(** [del d[key]], for a key of [d]. *)
Definition dict_del (key : string) (d : Dict) : Dict :=
  filter (fun kv => negb (String.eqb (fst kv) key)) d.

Definition VALUES_FOR_LIST_METRICS : string := "values_for_list_metrics".

#[warnings="-register-all"]
Inductive ExecutionResult : Type := mkExecutionResult {
  stage_name : string;
  inputs : Dict;
  outputs : Dict;
  stages : list ExecutionResult;
  error : string;
  info : Dict
}.

(** Induction on a result with the hypothesis on every stage. *)
Fixpoint ExecutionResult_stages_ind (P : ExecutionResult -> Prop)
    (step : forall r, Forall P (stages r) -> P r)
    (r : ExecutionResult) {struct r} : P r :=
  match r as r0 return (Forall P (stages r0) -> P r0) -> P r0 with
  | mkExecutionResult name ins outs sts err inf =>
      fun k =>
        k ((fix all (l : list ExecutionResult) : Forall P l :=
              match l with
              | [] => Forall_nil P
              | x :: l' =>
                  Forall_cons x (ExecutionResult_stages_ind P step x) (all l')
              end) sts)
  end (step r).

(** [self.get_leaf_results()] *)
Fixpoint get_leaf_results (self : ExecutionResult) : list ExecutionResult :=
  match self with
  | mkExecutionResult _ _ _ sts _ _ =>
      match sts with
      | [] => [self]
      | _ :: _ => flat_map get_leaf_results sts
      end
  end.

Fixpoint apply_formatting (result : ExecutionResult)
    (function : ExecutionResult -> string) {struct result} : string :=
  match result with
  | mkExecutionResult _ _ _ sts _ _ =>
      let res := function result in
      let subres :=
        fold_left (fun acc stage => acc ++ apply_formatting stage function)
          sts "" in
      res ++ Textwrap.indent subres "  "
  end.

Definition get_name_tree (result : ExecutionResult) : string :=
  apply_formatting result
    (fun s => if truthy (stage_name s)
              then "- " ++ stage_name s ++ nl else "-" ++ nl).

Definition _trim_key (key : string) : string :=
  if (String.length key <? 30)%nat then key
  else substring 0 27 key ++ "...".


(** [ExperimentResult]: the fields of [ExecutionResult] and two more. *)
Record ExperimentResult : Type := mkExperimentResult {
  base : ExecutionResult;
  targets : Dict;
  metrics : Dict
}.

(** [if key in d: del d[key]] *)
Definition discard (d : Dict) (key : string) : Dict :=
  if dict_contains key d then dict_del key d else d.

Definition input_fields_to_omit : list string :=
  ["exemplar"; "original"; "record_id"].
Definition output_fields_to_omit : list string := [VALUES_FOR_LIST_METRICS].

(** [to_compact_record], the keys of each set being visited in the order
    [input_keys] and [output_keys]. *)
Definition to_compact_record_in_order (input_keys output_keys : list string)
    (self : ExperimentResult) : ExperimentResult :=
  {| base :=
       {| stage_name := stage_name (base self);
          inputs := fold_left discard input_keys (inputs (base self));
          outputs := fold_left discard output_keys (outputs (base self));
          stages := [];
          error := error (base self);
          info := info (base self) |};
     targets := targets self;
     metrics := metrics self |}.

Definition to_compact_record (self : ExperimentResult) : ExperimentResult :=
  to_compact_record_in_order input_fields_to_omit output_fields_to_omit self.

Definition from_execution_result (execution_result : ExecutionResult)
  : ExperimentResult :=
  {| base :=
       {| stage_name := stage_name execution_result;
          inputs := inputs execution_result;
          outputs := outputs execution_result;
          stages := stages execution_result;
          error := error execution_result;
          info := info execution_result |};
     targets := [];
     metrics := [] |}.

(** The results below [r], [r] included. *)
Inductive within (r : ExecutionResult) : ExecutionResult -> Prop :=
| within_self : within r r
| within_stage (stage x : ExecutionResult) :
    In stage (stages r) -> within stage x -> within r x.

(** The number of results in a hierarchy. *)
Fixpoint node_count (r : ExecutionResult) : nat :=
  match r with
  | mkExecutionResult _ _ _ sts _ _ =>
      S (fold_right (fun stage n => node_count stage + n) 0 sts)
  end.

(** Every stage name of the hierarchy fits on one line. *)
Fixpoint names_on_one_line (r : ExecutionResult) : bool :=
  match r with
  | mkExecutionResult name _ _ sts _ _ =>
      Textwrap.has_no_line_break name && forallb names_on_one_line sts
  end.

(** The lines of the name tree as its documentation describes it: one line
    per result, stages after their parent, two more spaces at each level. *)
Fixpoint name_tree_lines (depth : nat) (r : ExecutionResult) : list string :=
  match r with
  | mkExecutionResult name _ _ sts _ _ =>
      (String.concat "" (repeat "  " depth)
       ++ (if truthy name then "- " ++ name ++ nl else "-" ++ nl))
      :: flat_map (name_tree_lines (S depth)) sts
  end.

End Results.

(** * Properties *)

(** ** Trimming *)

Lemma rstrip_app_space (s : string) (c : ascii) :
  is_space c = true -> rstrip (s ++ String c "") = rstrip s.
Proof.
  intros Hc. induction s as [|a s IH]; simpl.
  - now rewrite Hc.
  - now rewrite IH.
Qed.

Lemma rstrip_idempotent (s : string) : rstrip (rstrip s) = rstrip s.
Proof.
  induction s as [|a s IH]; simpl; [reflexivity|].
  destruct (is_space a && is_empty (rstrip s)) eqn:E; simpl; [reflexivity|].
  now rewrite IH, E.
Qed.

Lemma lstrip_head (s : string) :
  lstrip s = "" \/ exists a r, lstrip s = String a r /\ is_space a = false.
Proof.
  induction s as [|a s IH]; simpl; [now left|].
  destruct (is_space a) eqn:E; [exact IH|].
  right. now exists a, s.
Qed.

Lemma strip_head (s : string) :
  strip s = "" \/ exists a r, strip s = String a r /\ is_space a = false.
Proof.
  unfold strip. destruct (lstrip_head s) as [-> | (a & r & -> & Ha)]; simpl.
  - now left.
  - right. rewrite Ha. simpl. now exists a, (rstrip r).
Qed.

Lemma strip_rstrip (s : string) : rstrip (strip s) = strip s.
Proof. unfold strip. apply rstrip_idempotent. Qed.

(** [(s.strip() + '\n').strip() == s.strip()] *)
Lemma strip_strip_nl (s : string) : strip (strip s ++ nl) = strip s.
Proof.
  destruct (strip_head s) as [E | (a & r & E & Ha)].
  - rewrite E. reflexivity.
  - unfold strip at 1. rewrite E. simpl. rewrite Ha.
    change (String a (r ++ nl)) with (String a r ++ nl).
    unfold nl. rewrite rstrip_app_space by reflexivity.
    rewrite <- E. apply strip_rstrip.
Qed.

(** ** The reply parser *)

Section ParserFacts.

Variable re_search : string -> string -> option (nat * nat).
Variable parse_and_consume_call : string -> Result ExtractedCall.
Variable ERROR_STRING : string.

Variables reply_text action_pattern thought_pattern finish_pattern : string.
Variable final_stop_sequence : option string.
Variables act_start act_end thought_start thought_end : nat.
Variables finish_start finish_end : nat.

Hypothesis act_found :
  act_span re_search action_pattern reply_text = (act_start, act_end).
Hypothesis thought_found :
  thought_span re_search thought_pattern reply_text = (thought_start, thought_end).
Hypothesis finish_found :
  finish_span re_search finish_pattern reply_text = (finish_start, finish_end).

(** The three branches of the [try] block, one equation each. *)
Lemma body_act_first :
  (act_start < finish_start)%nat ->
  react_parse_body re_search parse_and_consume_call reply_text action_pattern
    thought_pattern finish_pattern final_stop_sequence =
  match parse_and_consume_call (strip (slice_from reply_text act_end)) with
  | Return (fn, args, kwargs, fmt) =>
      Return {| is_finished := String.eqb fn "Finish";
                thought := if (thought_start <? act_start)%nat
                           then strip (slice reply_text thought_end act_start)
                           else "";
                action := Some (mkFunctionCall fn args kwargs);
                observation := PyNone;
                fmt := Some fmt |}
  | Raise e => Raise e
  end.
Proof.
  intros Hlt. unfold react_parse_body.
  rewrite act_found, thought_found, finish_found.
  apply Nat.ltb_lt in Hlt. now rewrite Hlt.
Qed.

Lemma body_finish_first :
  (finish_start < act_start)%nat ->
  react_parse_body re_search parse_and_consume_call reply_text action_pattern
    thought_pattern finish_pattern final_stop_sequence =
  Return {| is_finished := true;
            thought := if (thought_start <? finish_start)%nat
                       then strip (slice reply_text thought_end finish_start)
                       else "";
            action := None;
            observation :=
              PyStr (final_answer_of reply_text finish_end final_stop_sequence);
            fmt := None |}.
Proof.
  intros Hlt. unfold react_parse_body.
  rewrite act_found, thought_found, finish_found.
  assert (Hge : (act_start <? finish_start)%nat = false)
    by (apply Nat.ltb_ge; lia).
  apply Nat.ltb_lt in Hlt. now rewrite Hge, Hlt.
Qed.

Lemma body_none_first :
  act_start = finish_start ->
  react_parse_body re_search parse_and_consume_call reply_text action_pattern
    thought_pattern finish_pattern final_stop_sequence =
  Raise (ValueError
           ("Didn't find " ++ action_pattern ++ " or " ++ finish_pattern)).
Proof.
  intros Heq. unfold react_parse_body.
  rewrite act_found, thought_found, finish_found. subst finish_start.
  now rewrite Nat.ltb_irrefl.
Qed.

End ParserFacts.

(** C4. When neither the action marker nor the finish marker is found, and
    when the action comes first and the call extraction raises a ValueError,
    [react_parse] returns instead of raising: the step it returns is not
    finished, has no action, and its observation is the error marker, a colon
    and a space, and the description of the failure. *)
Theorem react_parse_recovers_from_validation_errors :
  forall re_search parse_and_consume_call ERROR_STRING reply_text
         action_pattern thought_pattern finish_pattern final_stop_sequence,
    let parse :=
      react_parse re_search parse_and_consume_call ERROR_STRING reply_text
        action_pattern thought_pattern finish_pattern final_stop_sequence in
    (re_search action_pattern reply_text = None ->
     re_search finish_pattern reply_text = None ->
     exists step,
       parse = Return step /\
       is_finished step = false /\
       action step = None /\
       observation step =
         PyStr (ERROR_STRING ++ ": " ++
                "Didn't find " ++ action_pattern ++ " or " ++ finish_pattern))
    /\
    (forall act_start act_end finish_start finish_end msg,
       act_span re_search action_pattern reply_text = (act_start, act_end) ->
       finish_span re_search finish_pattern reply_text = (finish_start, finish_end) ->
       (act_start < finish_start)%nat ->
       parse_and_consume_call (strip (slice_from reply_text act_end))
         = Raise (ValueError msg) ->
       exists step,
         parse = Return step /\
         is_finished step = false /\
         action step = None /\
         observation step = PyStr (ERROR_STRING ++ ": " ++ msg)).
Proof.
  intros rs pc err text ap tp fp fss parse. split.
  - intros Ha Hf.
    exists (error_step err ("Didn't find " ++ ap ++ " or " ++ fp)).
    repeat split. unfold parse, react_parse.
    destruct (thought_span rs tp text) as [ts te] eqn:Et.
    rewrite (body_none_first rs pc text ap tp fp fss
               (String.length text) (String.length text) ts te
               (String.length text) (String.length text)); trivial.
    + unfold act_span. now rewrite Ha.
    + unfold finish_span. now rewrite Hf.
  - intros a_s a_e f_s f_e msg Ea Ef Hlt Hpc.
    exists (error_step err msg). repeat split. unfold parse, react_parse.
    destruct (thought_span rs tp text) as [ts te] eqn:Et.
    rewrite (body_act_first rs pc text ap tp fp fss a_s a_e ts te f_s f_e Ea Et Ef Hlt).
    now rewrite Hpc.
Qed.

Lemma react_parse_recovers_from_validation_errors_witness :
  (exists step,
     react_parse_default "#ERROR#" reply_unsure = Return step /\
     is_finished step = false /\
     action step = None /\
     observation step = PyStr "#ERROR#: Didn't find \[Act\]: or \[Finish\]:")
  /\
  (exists step,
     react_parse_default "#ERROR#" reply_bad_call = Return step /\
     is_finished step = false /\
     action step = None /\
     observation step = PyStr "#ERROR#: Not a call: Search(x").
Proof.
  pose proof (react_parse_recovers_from_validation_errors
                re_search_literal quoted_call_extractor "#ERROR#" reply_unsure
                default_action_pattern default_thought_pattern
                default_finish_pattern default_final_stop_sequence) as [H1 _].
  pose proof (react_parse_recovers_from_validation_errors
                re_search_literal quoted_call_extractor "#ERROR#" reply_bad_call
                default_action_pattern default_thought_pattern
                default_finish_pattern default_final_stop_sequence) as [_ H2].
  split.
  - apply H1; reflexivity.
  - apply (H2 15 21 31 31 "Not a call: Search(x"); [reflexivity | reflexivity | lia | reflexivity].
Defined.

(** C5. When the action marker starts strictly before the finish marker (an
    absent marker counting as the length of the text) and the extractor
    returns a call, [react_parse] returns a step whose action is that call,
    whose observation is absent, whose format is the extractor's, which is
    finished exactly when the call is named Finish, and whose thought is the
    trimmed text between the end of the thought marker and the start of the
    action marker when the thought marker starts before the action marker,
    and is empty otherwise. In particular the reply
    [[Thought]: t / [Act]: Search("x")] with the default markers gives the
    thought [t], the action [Search] with the one argument [x], and a step
    that is not finished. *)
Theorem react_parse_action_first :
  (forall re_search parse_and_consume_call ERROR_STRING reply_text
          action_pattern thought_pattern finish_pattern final_stop_sequence
          act_start act_end thought_start thought_end finish_start finish_end
          fn args kwargs fmt,
     act_span re_search action_pattern reply_text = (act_start, act_end) ->
     thought_span re_search thought_pattern reply_text
       = (thought_start, thought_end) ->
     finish_span re_search finish_pattern reply_text
       = (finish_start, finish_end) ->
     (act_start < finish_start)%nat ->
     parse_and_consume_call (strip (slice_from reply_text act_end))
       = Return (fn, args, kwargs, fmt) ->
     react_parse re_search parse_and_consume_call ERROR_STRING reply_text
       action_pattern thought_pattern finish_pattern final_stop_sequence
     = Return {| is_finished := String.eqb fn "Finish";
                 thought := if (thought_start <? act_start)%nat
                            then strip (slice reply_text thought_end act_start)
                            else "";
                 action := Some (mkFunctionCall fn args kwargs);
                 observation := PyNone;
                 fmt := Some fmt |})
  /\
  (forall parse_and_consume_call ERROR_STRING fmt,
     parse_and_consume_call ("Search(" ++ dquote ++ "x" ++ dquote ++ ")")
       = Return ("Search", [PyStr "x"], [], fmt) ->
     react_parse re_search_literal parse_and_consume_call ERROR_STRING
       reply_search default_action_pattern default_thought_pattern
       default_finish_pattern default_final_stop_sequence
     = Return {| is_finished := false;
                 thought := "t";
                 action := Some (mkFunctionCall "Search" [PyStr "x"] []);
                 observation := PyNone;
                 fmt := Some fmt |}).
Proof.
  assert (General :
    forall rs pc (err : string) text ap tp fp fss a_s a_e t_s t_e f_s f_e
           fn args kwargs fmt,
      act_span rs ap text = (a_s, a_e) ->
      thought_span rs tp text = (t_s, t_e) ->
      finish_span rs fp text = (f_s, f_e) ->
      (a_s < f_s)%nat ->
      pc (strip (slice_from text a_e)) = Return (fn, args, kwargs, fmt) ->
      react_parse rs pc err text ap tp fp fss
      = Return {| is_finished := String.eqb fn "Finish";
                  thought := if (t_s <? a_s)%nat
                             then strip (slice text t_e a_s) else "";
                  action := Some (mkFunctionCall fn args kwargs);
                  observation := PyNone;
                  fmt := Some fmt |}).
  { intros rs pc err text ap tp fp fss a_s a_e t_s t_e f_s f_e fn args kwargs
           fmt Ea Et Ef Hlt Hpc.
    unfold react_parse.
    rewrite (body_act_first rs pc text ap tp fp fss a_s a_e t_s t_e f_s f_e
               Ea Et Ef Hlt).
    now rewrite Hpc. }
  split; [exact General|].
  intros pc err fmt Hpc.
  apply (General re_search_literal pc err reply_search default_action_pattern
           default_thought_pattern default_finish_pattern
           default_final_stop_sequence 13 19 0 10 32 32
           "Search" [PyStr "x"] [] fmt);
    [reflexivity | reflexivity | reflexivity | lia | exact Hpc].
Qed.

Lemma react_parse_action_first_witness :
  react_parse_default "#ERROR#" reply_finish_call
  = Return {| is_finished := true;
              thought := "done";
              action := Some (mkFunctionCall "Finish" [PyStr "42"] []);
              observation := PyNone;
              fmt := Some PYTHON |}
  /\
  react_parse_default "#ERROR#" reply_search
  = Return {| is_finished := false;
              thought := "t";
              action := Some (mkFunctionCall "Search" [PyStr "x"] []);
              observation := PyNone;
              fmt := Some PYTHON |}.
Proof.
  destruct react_parse_action_first as [General Particular].
  split.
  - apply (General re_search_literal quoted_call_extractor "#ERROR#"
             reply_finish_call default_action_pattern default_thought_pattern
             default_finish_pattern default_final_stop_sequence
             16 22 0 10 36 36 "Finish" [PyStr "42"] [] PYTHON);
      [reflexivity | reflexivity | reflexivity | lia | reflexivity].
  - apply (Particular quoted_call_extractor "#ERROR#" PYTHON). reflexivity.
Defined.

(** C10. When the thought marker starts before the action marker, the action
    comes first and the call extraction raises a ValueError, the recovered
    step has the empty thought: the thought text is dropped. *)
Theorem react_parse_error_step_drops_thought :
  forall re_search parse_and_consume_call ERROR_STRING reply_text
         action_pattern thought_pattern finish_pattern final_stop_sequence
         act_start act_end thought_start thought_end finish_start finish_end msg,
    act_span re_search action_pattern reply_text = (act_start, act_end) ->
    thought_span re_search thought_pattern reply_text
      = (thought_start, thought_end) ->
    finish_span re_search finish_pattern reply_text
      = (finish_start, finish_end) ->
    (thought_start < act_start)%nat ->
    (act_start < finish_start)%nat ->
    parse_and_consume_call (strip (slice_from reply_text act_end))
      = Raise (ValueError msg) ->
    exists step,
      react_parse re_search parse_and_consume_call ERROR_STRING reply_text
        action_pattern thought_pattern finish_pattern final_stop_sequence
      = Return step /\
      thought step = "" /\
      is_finished step = false.
Proof.
  intros rs pc err text ap tp fp fss a_s a_e t_s t_e f_s f_e msg
         Ea Et Ef _ Hlt Hpc.
  exists (error_step err msg). unfold react_parse.
  rewrite (body_act_first rs pc text ap tp fp fss a_s a_e t_s t_e f_s f_e
             Ea Et Ef Hlt).
  rewrite Hpc. now repeat split.
Qed.

Lemma react_parse_error_step_drops_thought_witness :
  strip (slice reply_bad_call 10 15) = "hmm" /\
  exists step,
    react_parse_default "#ERROR#" reply_bad_call = Return step /\
    thought step = "" /\
    is_finished step = false.
Proof.
  split; [reflexivity|].
  apply (react_parse_error_step_drops_thought
           re_search_literal quoted_call_extractor "#ERROR#" reply_bad_call
           default_action_pattern default_thought_pattern
           default_finish_pattern default_final_stop_sequence
           15 21 0 10 31 31 "Not a call: Search(x");
    [reflexivity | reflexivity | reflexivity | lia | lia | reflexivity].
Defined.

(** C1, as stated, fails on the reply [I am not sure.]: the step that
    [react_parse] returns has no action and an observation, and is not
    finished. *)
Lemma react_parse_error_step_is_not_a_finish :
  ~ (forall step,
       react_parse_default "#ERROR#" reply_unsure = Return step ->
       action step = None ->
       observation step <> PyNone ->
       is_finished step = true).
Proof.
  intros H.
  specialize (H (error_step "#ERROR#" "Didn't find \[Act\]: or \[Finish\]:")).
  discriminate H; [reflexivity | reflexivity | discriminate].
Qed.

(** C1, amended. A step returned by [react_parse] that has no action and has
    an observation is either a finish step, which is finished and whose
    observation is the final answer of the finish branch, or the step of the
    error recovery, which is not finished and whose observation is the error
    marker, a colon and a space, and the description of the failure. *)
Theorem react_parse_step_without_action :
  forall re_search parse_and_consume_call ERROR_STRING reply_text
         action_pattern thought_pattern finish_pattern final_stop_sequence step,
    react_parse re_search parse_and_consume_call ERROR_STRING reply_text
      action_pattern thought_pattern finish_pattern final_stop_sequence
    = Return step ->
    action step = None ->
    observation step <> PyNone ->
    (is_finished step = true /\
     (fst (finish_span re_search finish_pattern reply_text)
      < fst (act_span re_search action_pattern reply_text))%nat /\
     observation step =
       PyStr (final_answer_of reply_text
                (snd (finish_span re_search finish_pattern reply_text))
                final_stop_sequence))
    \/
    (is_finished step = false /\
     exists msg, observation step = PyStr (ERROR_STRING ++ ": " ++ msg)).
Proof.
  intros rs pc err text ap tp fp fss step Hparse Hact _.
  destruct (act_span rs ap text) as [a_s a_e] eqn:Ea.
  destruct (thought_span rs tp text) as [t_s t_e] eqn:Et.
  destruct (finish_span rs fp text) as [f_s f_e] eqn:Ef.
  unfold react_parse in Hparse. simpl fst. simpl snd.
  destruct (lt_eq_lt_dec a_s f_s) as [[Hlt | Heq] | Hgt].
  - rewrite (body_act_first rs pc text ap tp fp fss a_s a_e t_s t_e f_s f_e
               Ea Et Ef Hlt) in Hparse.
    destruct (pc (strip (slice_from text a_e))) as [[[[fn args] kwargs] fmt] | e].
    + simpl in Hparse. injection Hparse as <-. discriminate Hact.
    + destruct e as [msg | kind msg]; simpl in Hparse; [|discriminate Hparse].
      injection Hparse as <-. right. split; [reflexivity|]. now exists msg.
  - rewrite (body_none_first rs pc text ap tp fp fss a_s a_e t_s t_e f_s f_e
               Ea Et Ef Heq) in Hparse.
    simpl in Hparse. injection Hparse as <-. right. split; [reflexivity|].
    now eexists.
  - rewrite (body_finish_first rs pc text ap tp fp fss a_s a_e t_s t_e f_s f_e
               Ea Et Ef Hgt) in Hparse.
    simpl in Hparse. injection Hparse as <-. left. now repeat split.
Qed.

Lemma react_parse_step_without_action_witness :
  react_parse_default "#ERROR#" reply_finish = Return step_238_meters /\
  ((is_finished step_238_meters = true /\
    (fst (finish_span re_search_literal default_finish_pattern reply_finish)
     < fst (act_span re_search_literal default_action_pattern reply_finish))%nat /\
    observation step_238_meters =
      PyStr (final_answer_of reply_finish
               (snd (finish_span re_search_literal default_finish_pattern
                       reply_finish))
               default_final_stop_sequence))
   \/
   (is_finished step_238_meters = false /\
    exists msg, observation step_238_meters = PyStr ("#ERROR#" ++ ": " ++ msg))).
Proof.
  split; [reflexivity|].
  apply (react_parse_step_without_action
           re_search_literal quoted_call_extractor "#ERROR#" reply_finish
           default_action_pattern default_thought_pattern
           default_finish_pattern default_final_stop_sequence step_238_meters);
    [reflexivity | reflexivity | discriminate].
Defined.

(** C6, as stated, fails on the reply [[Finish]:] followed by a blank line and
    [42]: the finish marker comes first, and the observation is [42], not the
    text after the marker truncated at the first blank line, which is empty. *)
Lemma final_answer_is_not_truncated_first :
  ~ ((fst (finish_span re_search_literal default_finish_pattern reply_blank_line)
      < fst (act_span re_search_literal default_action_pattern reply_blank_line))%nat ->
     exists step,
       react_parse_default "#ERROR#" reply_blank_line = Return step /\
       is_finished step = true /\
       action step = None /\
       observation step =
         PyStr (final_answer_as_stated reply_blank_line
                  (snd (finish_span re_search_literal default_finish_pattern
                          reply_blank_line))
                  (nl ++ nl))).
Proof.
  intros H. destruct H as (step & Hparse & _ & _ & Hobs).
  - apply Nat.ltb_lt. reflexivity.
  - vm_compute in Hparse. injection Hparse as <-.
    vm_compute in Hobs. discriminate Hobs.
Qed.

(** C6, amended. When the finish marker starts strictly before the action
    marker (an absent marker counting as the length of the text),
    [react_parse] returns a finished step with no action and no format,
    whose thought is gated by the thought marker as in the action branch, and
    whose observation is the text after the finish marker, trimmed, then, when
    a non-empty final stop sequence is configured, truncated at its first
    occurrence and trimmed again. In particular the reply
    [[Finish]: 238 meters] followed by a blank line gives the observation
    [238 meters]. *)
Theorem react_parse_finish_first :
  (forall re_search parse_and_consume_call ERROR_STRING reply_text
          action_pattern thought_pattern finish_pattern final_stop_sequence
          act_start act_end thought_start thought_end finish_start finish_end,
     act_span re_search action_pattern reply_text = (act_start, act_end) ->
     thought_span re_search thought_pattern reply_text
       = (thought_start, thought_end) ->
     finish_span re_search finish_pattern reply_text
       = (finish_start, finish_end) ->
     (finish_start < act_start)%nat ->
     exists step,
       react_parse re_search parse_and_consume_call ERROR_STRING reply_text
         action_pattern thought_pattern finish_pattern final_stop_sequence
       = Return step /\
       is_finished step = true /\
       action step = None /\
       fmt step = None /\
       thought step = (if (thought_start <? finish_start)%nat
                       then strip (slice reply_text thought_end finish_start)
                       else "") /\
       let trimmed := strip (slice_from reply_text finish_end) in
       (forall sep,
          final_stop_sequence = Some sep -> sep <> "" ->
          observation step = PyStr (strip (split_head sep trimmed))) /\
       (final_stop_sequence = None \/ final_stop_sequence = Some "" ->
        observation step = PyStr trimmed))
  /\
  (forall parse_and_consume_call ERROR_STRING,
     react_parse re_search_literal parse_and_consume_call ERROR_STRING
       reply_finish default_action_pattern default_thought_pattern
       default_finish_pattern (Some (nl ++ nl))
     = Return {| is_finished := true;
                 thought := "";
                 action := None;
                 observation := PyStr "238 meters";
                 fmt := None |}).
Proof.
  split.
  - intros rs pc err text ap tp fp fss a_s a_e t_s t_e f_s f_e Ea Et Ef Hlt.
    eexists. unfold react_parse.
    rewrite (body_finish_first rs pc text ap tp fp fss a_s a_e t_s t_e f_s f_e
               Ea Et Ef Hlt).
    simpl. repeat split.
    + intros sep -> Hsep. unfold final_answer_of.
      destruct sep as [|c sep]; [contradiction|reflexivity].
    + intros [-> | ->]; reflexivity.
  - intros pc err. unfold react_parse.
    rewrite (body_finish_first re_search_literal pc reply_finish
               default_action_pattern default_thought_pattern
               default_finish_pattern (Some (nl ++ nl)) 22 22 22 22 0 9);
      [reflexivity | reflexivity | reflexivity | reflexivity | lia].
Qed.

Lemma react_parse_finish_first_witness :
  exists step,
    react_parse_default "#ERROR#" reply_blank_line = Return step /\
    is_finished step = true /\
    action step = None /\
    fmt step = None /\
    thought step = "" /\
    observation step = PyStr "42".
Proof.
  destruct react_parse_finish_first as [General _].
  destruct (General re_search_literal quoted_call_extractor "#ERROR#"
              reply_blank_line default_action_pattern default_thought_pattern
              default_finish_pattern default_final_stop_sequence
              14 14 14 14 0 9)
    as (step & Hparse & Hfin & Hact & Hfmt & Hthought & Hsep & _);
    [reflexivity | reflexivity | reflexivity | lia |].
  exists step. repeat split; trivial.
  apply (Hsep (nl ++ nl)); [reflexivity | discriminate].
Defined.

(** ** The step function *)

(** One run of the step function in a state that holds at least [max_steps]
    steps. *)
Lemma run_forced_step (World : Type)
    (ph : PromptRequest -> World -> Result string * World)
    (th : string -> list PyValue -> list (string * PyValue) -> World
          -> Result PyValue * World)
    (agent : ReActAgent.t) (state : ReActState)
    (env : PythonToolUseEnvironment) (w : World) :
  (Z.of_nat (List.length (updates state)) >= ReActAgent.max_steps agent)%Z ->
  run World ph th (ReActAgent._sample_single_next_step agent state (Some env)) w
  = match ph (ReActAgent.prompt_kwargs agent state env true) w with
    | (Return reply, w') =>
        (Return {| is_finished := true; thought := ""; action := None;
                   observation := PyStr (strip reply); fmt := None |},
         [PromptCalled (ReActAgent.prompt_kwargs agent state env true)], w')
    | (Raise e, w') =>
        (Raise e,
         [PromptCalled (ReActAgent.prompt_kwargs agent state env true)], w')
    end.
Proof.
  intros Hforce.
  assert (Hgeb :
    (Z.of_nat (List.length (updates state)) >=? ReActAgent.max_steps agent)%Z
    = true) by (apply Z.geb_le; lia).
  unfold ReActAgent._sample_single_next_step.
  rewrite Hgeb. simpl.
  destruct (ph (ReActAgent.prompt_kwargs agent state env true) w)
    as [[reply | e] w']; [|reflexivity].
  now rewrite strip_strip_nl.
Qed.

(** C7. In a state that holds at least [max_steps] steps, one run of the step
    function calls the prompt with [force_finish] set and nothing else: it
    does not call the tool environment, it does not consult the parser, and
    when the prompt returns it returns a finished step with the empty thought,
    no action, and the trimmed reply as its observation. *)
Theorem forced_finish_skips_parsing_and_tools :
  forall (World : Type)
         (prompt_handler : PromptRequest -> World -> Result string * World)
         (tool_handler : string -> list PyValue -> list (string * PyValue)
                         -> World -> Result PyValue * World)
         (agent : ReActAgent.t) (state : ReActState)
         (env : PythonToolUseEnvironment) (w : World),
    (Z.of_nat (List.length (updates state)) >= ReActAgent.max_steps agent)%Z ->
    let req := ReActAgent.prompt_kwargs agent state env true in
    let outcome :=
      run World prompt_handler tool_handler
        (ReActAgent._sample_single_next_step agent state (Some env)) w in
    (forall reply w',
       prompt_handler req w = (Return reply, w') ->
       outcome =
       (Return {| is_finished := true;
                  thought := "";
                  action := None;
                  observation := PyStr (strip reply);
                  fmt := None |},
        [PromptCalled req], w'))
    /\
    (forall e w',
       prompt_handler req w = (Raise e, w') ->
       outcome = (Raise e, [PromptCalled req], w'))
    /\
    existsb is_tool_call (snd (fst outcome)) = false.
Proof.
  intros World ph th agent state env w Hforce req outcome.
  pose proof (run_forced_step World ph th agent state env w Hforce) as Hout.
  fold req outcome in Hout. rewrite Hout. repeat split.
  - intros reply w' ->. reflexivity.
  - intros e w' ->. reflexivity.
  - now destruct (ph req w) as [[reply | e] w'].
Qed.

Lemma forced_finish_skips_parsing_and_tools_witness :
  run Scripted.World Scripted.prompt_handler Scripted.tool_handler
    (ReActAgent._sample_single_next_step (Scripted.agent 0)
       (ReActAgent.initialize_state (Scripted.agent 0) "How tall is K2?")
       (Some Scripted.environment))
    [" " ++ reply_search]
  = (Return {| is_finished := true;
               thought := "";
               action := None;
               observation := PyStr (strip (" " ++ reply_search));
               fmt := None |},
     [PromptCalled
        (ReActAgent.prompt_kwargs (Scripted.agent 0)
           (ReActAgent.initialize_state (Scripted.agent 0) "How tall is K2?")
           Scripted.environment true)],
     []).
Proof.
  apply (forced_finish_skips_parsing_and_tools
           Scripted.World Scripted.prompt_handler Scripted.tool_handler
           (Scripted.agent 0)
           (ReActAgent.initialize_state (Scripted.agent 0) "How tall is K2?")
           Scripted.environment [" " ++ reply_search]);
    [simpl; lia | reflexivity].
Defined.

(** C9. When the step is not forced and the parser of the agent is
    [react_parse], a reply in which the action comes first and the extracted
    call is named Finish makes the step function call the tool environment
    with the name Finish and the positional and keyword arguments of the call,
    and return the finished step with the value that the environment returned
    as its observation. *)
Theorem finish_action_observation_comes_from_tool :
  forall (World : Type)
         (prompt_handler : PromptRequest -> World -> Result string * World)
         (tool_handler : string -> list PyValue -> list (string * PyValue)
                         -> World -> Result PyValue * World)
         re_search parse_and_consume_call ERROR_STRING
         action_pattern thought_pattern finish_pattern final_stop_sequence
         (agent : ReActAgent.t) (state : ReActState)
         (env : PythonToolUseEnvironment) (w w1 w2 : World)
         (reply : string) (v : PyValue)
         act_start act_end thought_start thought_end finish_start finish_end
         args kwargs fmt,
    (forall text,
       ReActAgent.parse agent text =
       react_parse re_search parse_and_consume_call ERROR_STRING text
         action_pattern thought_pattern finish_pattern final_stop_sequence) ->
    (Z.of_nat (List.length (updates state)) < ReActAgent.max_steps agent)%Z ->
    let req := ReActAgent.prompt_kwargs agent state env false in
    let llm_reply := strip reply ++ nl in
    prompt_handler req w = (Return reply, w1) ->
    act_span re_search action_pattern llm_reply = (act_start, act_end) ->
    thought_span re_search thought_pattern llm_reply
      = (thought_start, thought_end) ->
    finish_span re_search finish_pattern llm_reply
      = (finish_start, finish_end) ->
    (act_start < finish_start)%nat ->
    parse_and_consume_call (strip (slice_from llm_reply act_end))
      = Return ("Finish", args, kwargs, fmt) ->
    tool_handler "Finish" args kwargs w1 = (Return v, w2) ->
    run World prompt_handler tool_handler
      (ReActAgent._sample_single_next_step agent state (Some env)) w
    = (Return {| is_finished := true;
                 thought := if (thought_start <? act_start)%nat
                            then strip (slice llm_reply thought_end act_start)
                            else "";
                 action := Some (mkFunctionCall "Finish" args kwargs);
                 observation := v;
                 fmt := Some fmt |},
       [PromptCalled req; ToolCalled "Finish" args kwargs], w2).
Proof.
  intros World ph th rs pc err ap tp fp fss agent state env w w1 w2 reply v
         a_s a_e t_s t_e f_s f_e args kwargs fmt Hparse Hsteps req llm_reply
         Hprompt Ea Et Ef Hlt Hpc Htool.
  assert (Hgeb :
    (Z.of_nat (List.length (updates state)) >=? ReActAgent.max_steps agent)%Z
    = false) by (rewrite Z.geb_leb; apply Z.leb_gt; lia).
  unfold ReActAgent._sample_single_next_step. rewrite Hgeb. simpl.
  fold req. rewrite Hprompt. fold llm_reply. rewrite Hparse.
  unfold react_parse.
  rewrite (body_act_first rs pc llm_reply ap tp fp fss a_s a_e t_s t_e f_s f_e
             Ea Et Ef Hlt).
  rewrite Hpc. simpl. now rewrite Htool.
Qed.

Lemma finish_action_observation_comes_from_tool_witness :
  run Scripted.World Scripted.prompt_handler Scripted.tool_handler
    (ReActAgent._sample_single_next_step (Scripted.agent 10)
       (ReActAgent.initialize_state (Scripted.agent 10) "What is 6 times 7?")
       (Some Scripted.environment))
    [reply_finish_call]
  = (Return {| is_finished := true;
               thought := "done";
               action := Some (mkFunctionCall "Finish" [PyStr "42"] []);
               observation := PyStr "result of Finish";
               fmt := Some PYTHON |},
     [PromptCalled
        (ReActAgent.prompt_kwargs (Scripted.agent 10)
           (ReActAgent.initialize_state (Scripted.agent 10) "What is 6 times 7?")
           Scripted.environment false);
      ToolCalled "Finish" [PyStr "42"] []],
     []).
Proof.
  apply (finish_action_observation_comes_from_tool
           Scripted.World Scripted.prompt_handler Scripted.tool_handler
           re_search_literal quoted_call_extractor "#ERROR#"
           default_action_pattern default_thought_pattern
           default_finish_pattern default_final_stop_sequence
           (Scripted.agent 10)
           (ReActAgent.initialize_state (Scripted.agent 10) "What is 6 times 7?")
           Scripted.environment [reply_finish_call] [] []
           reply_finish_call (PyStr "result of Finish")
           16 22 0 10 36 36 [PyStr "42"] [] PYTHON);
    [reflexivity | simpl; lia | reflexivity | reflexivity | reflexivity
    | reflexivity | lia | reflexivity | reflexivity].
Defined.

(** ** Termination and output *)

Lemma last_update_snoc (inp : string) (earlier : list ReActStep)
    (last_step : ReActStep) :
  ReActAgent.last_update
    {| inputs := inp; updates := earlier ++ [last_step] |} = Some last_step.
Proof.
  unfold ReActAgent.last_update. simpl.
  rewrite map_app. simpl. apply last_last.
Qed.

Lemma last_update_of_updates (state : ReActState) :
  ReActAgent.last_update state =
  match rev (updates state) with
  | [] => None
  | last_step :: _ => Some last_step
  end.
Proof.
  destruct state as [inp l]. simpl.
  destruct l as [|x l] using rev_ind; [reflexivity|].
  rewrite last_update_snoc, rev_app_distr. reflexivity.
Qed.

Lemma is_finished_snoc (agent : ReActAgent.t) (state : ReActState)
    (earlier : list ReActStep) (last_step : ReActStep) :
  updates state = (earlier ++ [last_step])%list ->
  ReActAgent.is_finished agent state = is_finished last_step.
Proof.
  intros E. unfold ReActAgent.is_finished.
  rewrite last_update_of_updates, E, rev_app_distr. reflexivity.
Qed.

Lemma is_finished_nil (agent : ReActAgent.t) (state : ReActState) :
  updates state = [] -> ReActAgent.is_finished agent state = false.
Proof.
  intros E. unfold ReActAgent.is_finished.
  now rewrite last_update_of_updates, E.
Qed.

(** C8. [extract_output] returns the string form of the observation of the
    last step when the state is FINISHED, that is when [updates] is not empty
    and its last step is finished; in any other state, empty or with an
    unfinished last step, it returns [str(None)], whatever the observations
    of the steps are. *)
Theorem extract_output_is_gated (agent : ReActAgent.t) (state : ReActState) :
  (forall earlier last_step,
     updates state = (earlier ++ [last_step])%list ->
     is_finished last_step = true ->
     ReActAgent.is_finished agent state = true /\
     ReActAgent.extract_output agent state = py_str (observation last_step))
  /\
  (ReActAgent.is_finished agent state = false ->
   ReActAgent.extract_output agent state = "None")
  /\
  (ReActAgent.is_finished agent state = true ->
   exists earlier last_step,
     updates state = (earlier ++ [last_step])%list /\
     is_finished last_step = true /\
     ReActAgent.extract_output agent state = py_str (observation last_step)).
Proof.
  split; [|split].
  - intros earlier last_step E Hlast. split.
    + now rewrite (is_finished_snoc agent state earlier last_step E).
    + unfold ReActAgent.extract_output.
      rewrite last_update_of_updates, E, rev_app_distr. simpl.
      now rewrite Hlast.
  - unfold ReActAgent.is_finished, ReActAgent.extract_output.
    destruct (ReActAgent.last_update state) as [last_step|]; [|reflexivity].
    now intros ->.
  - unfold ReActAgent.is_finished, ReActAgent.extract_output.
    rewrite last_update_of_updates.
    destruct (rev (updates state)) as [|last_step earlier] eqn:E;
      [discriminate|].
    intros Hfin. exists (rev earlier), last_step. repeat split.
    + rewrite <- (rev_involutive (updates state)), E. reflexivity.
    + exact Hfin.
    + now rewrite Hfin.
Qed.

Lemma extract_output_is_gated_witness :
  ReActAgent.extract_output (Scripted.agent 10)
    {| inputs := "How much taller is Everest than K2?";
       updates := [error_step "#ERROR#" "Not a call: Search(x"; step_238_meters] |}
  = "238 meters"
  /\
  ReActAgent.extract_output (Scripted.agent 10)
    {| inputs := "How much taller is Everest than K2?";
       updates := [step_238_meters; error_step "#ERROR#" "Not a call: Search(x"] |}
  = "None".
Proof.
  split.
  - destruct (extract_output_is_gated (Scripted.agent 10)
                {| inputs := "How much taller is Everest than K2?";
                   updates := [error_step "#ERROR#" "Not a call: Search(x";
                               step_238_meters] |}) as [Hfinished _].
    apply (Hfinished [error_step "#ERROR#" "Not a call: Search(x"]
             step_238_meters); reflexivity.
  - destruct (extract_output_is_gated (Scripted.agent 10)
                {| inputs := "How much taller is Everest than K2?";
                   updates := [step_238_meters;
                               error_step "#ERROR#" "Not a call: Search(x"] |})
      as [_ [Hrunning _]].
    apply Hrunning. reflexivity.
Defined.

(** ** The driving loop *)

Section LoopFacts.

Variable World : Type.
Variable prompt_handler : PromptRequest -> World -> Result string * World.
Variable tool_handler :
  string -> list PyValue -> list (string * PyValue) -> World
  -> Result PyValue * World.
Variable agent : ReActAgent.t.
Variable environment : option PythonToolUseEnvironment.

(** An iteration that returns has appended exactly one step. *)
Lemma advance_appends (state state' : ReActState) (w w' : World)
    (evs : list Event) :
  advance World prompt_handler tool_handler agent environment state w
  = (Return state', evs, w') ->
  exists step, state' = append_update state step.
Proof.
  unfold advance.
  destruct (run World prompt_handler tool_handler
              (ReActAgent._sample_single_next_step agent state environment) w)
    as [[[step | e] evs0] w0]; intros H; [|discriminate H].
  injection H as <- _ _. now exists step.
Qed.

Lemma finished_only_last_snoc (l : list ReActStep) (step : ReActStep) :
  finished_only_last l ->
  (forall earlier x, l = (earlier ++ [x])%list -> is_finished x = false) ->
  finished_only_last (l ++ [step]).
Proof.
  intros Hinv Hlast earlier x later E Hx.
  destruct later as [|y later] using rev_ind; [reflexivity|]. exfalso.
  change (earlier ++ x :: later ++ [y])%list
    with (earlier ++ (x :: later) ++ [y])%list in E.
  rewrite app_assoc in E. apply app_inj_tail in E as [E _].
  pose proof (Hinv earlier x later E Hx) as ->.
  rewrite (Hlast earlier x E) in Hx. discriminate Hx.
Qed.

Lemma reachable_finished_only_last (state : ReActState) :
  reachable World prompt_handler tool_handler agent environment state ->
  finished_only_last (updates state).
Proof.
  induction 1 as [inp | state state' w w' evs _ IH Hrunning Hadv].
  - intros [|a earlier] x later E; discriminate E.
  - apply advance_appends in Hadv as [step ->]. simpl.
    apply finished_only_last_snoc; [exact IH|].
    intros earlier x E.
    now rewrite <- (is_finished_snoc agent state earlier x E).
Qed.

End LoopFacts.

(** C3. In every trajectory that the loop reaches from the initial state by
    appending, only while the state is not FINISHED, the step that the step
    function returned, a finished step is the last element of [updates]: no
    step follows a finished step. *)
Theorem finished_step_is_last :
  forall (World : Type)
         (prompt_handler : PromptRequest -> World -> Result string * World)
         (tool_handler : string -> list PyValue -> list (string * PyValue)
                         -> World -> Result PyValue * World)
         (agent : ReActAgent.t)
         (environment : option PythonToolUseEnvironment)
         (state : ReActState),
    reachable World prompt_handler tool_handler agent environment state ->
    (forall earlier x later,
       updates state = (earlier ++ x :: later)%list ->
       is_finished x = true ->
       later = [])
    /\
    (forall earlier x y later,
       updates state = (earlier ++ x :: y :: later)%list ->
       is_finished x = false).
Proof.
  intros World ph th agent environment state Hreach.
  pose proof (reachable_finished_only_last World ph th agent environment
                state Hreach) as Hinv.
  split; [exact Hinv|].
  intros earlier x y later E.
  destruct (is_finished x) eqn:Hx; [|reflexivity].
  discriminate (Hinv earlier x (y :: later) E Hx).
Qed.

Lemma finished_step_is_last_witness :
  reachable Scripted.World Scripted.prompt_handler Scripted.tool_handler
    (Scripted.agent 10) (Some Scripted.environment)
    {| inputs := "How much taller is Everest than K2?";
       updates := [error_step "#ERROR#" "Didn't find \[Act\]: or \[Finish\]:";
                   step_238_meters] |}
  /\
  (forall earlier x later,
     [error_step "#ERROR#" "Didn't find \[Act\]: or \[Finish\]:";
      step_238_meters] = (earlier ++ x :: later)%list ->
     is_finished x = true ->
     later = []).
Proof.
  assert (Hreach :
    reachable Scripted.World Scripted.prompt_handler Scripted.tool_handler
      (Scripted.agent 10) (Some Scripted.environment)
      {| inputs := "How much taller is Everest than K2?";
         updates := [error_step "#ERROR#" "Didn't find \[Act\]: or \[Finish\]:";
                     step_238_meters] |}).
  { apply (reachable_advance _ _ _ _ _
             {| inputs := "How much taller is Everest than K2?";
                updates := [error_step "#ERROR#"
                              "Didn't find \[Act\]: or \[Finish\]:"] |}
             _ [reply_finish] [] 
             [PromptCalled
                (ReActAgent.prompt_kwargs (Scripted.agent 10)
                   {| inputs := "How much taller is Everest than K2?";
                      updates := [error_step "#ERROR#"
                                    "Didn't find \[Act\]: or \[Finish\]:"] |}
                   Scripted.environment false)]);
      [|reflexivity|reflexivity].
    apply (reachable_advance _ _ _ _ _
             (ReActAgent.initialize_state (Scripted.agent 10)
                "How much taller is Everest than K2?")
             _ [reply_unsure; reply_finish] [reply_finish]
             [PromptCalled
                (ReActAgent.prompt_kwargs (Scripted.agent 10)
                   (ReActAgent.initialize_state (Scripted.agent 10)
                      "How much taller is Everest than K2?")
                   Scripted.environment false)]);
      [apply reachable_init|reflexivity|reflexivity]. }
  split; [exact Hreach|].
  apply (finished_step_is_last Scripted.World Scripted.prompt_handler
           Scripted.tool_handler (Scripted.agent 10)
           (Some Scripted.environment) _ Hreach).
Defined.

Section BoundedLoop.

Variable World : Type.
Variable prompt_handler : PromptRequest -> World -> Result string * World.
Variable tool_handler :
  string -> list PyValue -> list (string * PyValue) -> World
  -> Result PyValue * World.
Variable agent : ReActAgent.t.
Variable env : PythonToolUseEnvironment.

(** An iteration in a state that holds at least [max_steps] steps appends a
    forced step, which is finished. *)
Lemma advance_forced (state state' : ReActState) (w w' : World)
    (evs : list Event) :
  (Z.of_nat (List.length (updates state)) >= ReActAgent.max_steps agent)%Z ->
  advance World prompt_handler tool_handler agent (Some env) state w
  = (Return state', evs, w') ->
  exists step,
    state' = append_update state step /\
    is_finished step = true /\ action step = None /\
    ReActAgent.is_finished agent state' = true.
Proof.
  intros Hforce. unfold advance.
  rewrite (run_forced_step World prompt_handler tool_handler agent state env w
             Hforce).
  destruct (prompt_handler (ReActAgent.prompt_kwargs agent state env true) w)
    as [[reply | e] w0]; intros H; [|discriminate H].
  injection H as <- _ _.
  eexists. split; [reflexivity|]. split; [reflexivity|]. split; [reflexivity|].
  erewrite is_finished_snoc; [|simpl; reflexivity]. reflexivity.
Qed.

Lemma advance_returns (state : ReActState) (w : World) :
  collaborators_return World prompt_handler tool_handler agent ->
  exists state' evs w',
    advance World prompt_handler tool_handler agent (Some env) state w
    = (Return state', evs, w').
Proof.
  intros (Hprompt & Htool & Hparse).
  unfold advance, ReActAgent._sample_single_next_step. simpl.
  destruct (Hprompt
              (ReActAgent.prompt_kwargs agent state env
                 (Z.of_nat (List.length (updates state))
                  >=? ReActAgent.max_steps agent)%Z) w) as (reply & w1 & ->).
  destruct (Z.of_nat (List.length (updates state))
            >=? ReActAgent.max_steps agent)%Z; simpl; [now eauto|].
  destruct (Hparse (strip reply ++ nl)) as (step & ->).
  destruct (action step) as [a|]; simpl; [|now eauto].
  destruct (Htool (function_name a) (args a) (kwargs a) w1) as (v & w2 & ->).
  simpl. now eauto.
Qed.

Lemma run_loop_finished (fuel : nat) (state : ReActState) (w : World)
    (done : nat) :
  ReActAgent.is_finished agent state = true ->
  run_loop World prompt_handler tool_handler agent (Some env) fuel state w done
  = Finished state done.
Proof. intros H. destruct fuel; simpl; now rewrite H. Qed.

(** In a state that is at most [gap] steps short of the budget, the loop
    stops by itself within [gap + 1] iterations, however many more it is
    allowed. *)
Lemma run_loop_stops (gap : nat) :
  forall (fuel : nat) (state : ReActState) (w : World) (done : nat),
    (ReActAgent.max_steps agent
     <= Z.of_nat (List.length (updates state) + gap))%Z ->
    gap < fuel ->
    match run_loop World prompt_handler tool_handler agent (Some env)
            fuel state w done with
    | Finished state' iterations =>
        iterations <= done + S gap /\
        ReActAgent.is_finished agent state' = true
    | Aborted _ _ iterations => iterations <= done + gap
    | StillRunning _ _ => False
    end.
Proof.
  induction gap as [|gap IH]; intros fuel state w done Hbudget Hfuel;
    (destruct fuel as [|fuel]; [lia|]); cbn [run_loop];
    (destruct (ReActAgent.is_finished agent state) eqn:Hfin;
     [split; [lia | exact Hfin]|]);
    (destruct (advance World prompt_handler tool_handler agent (Some env)
                 state w) as [[[state' | e] evs] w'] eqn:Hadv; [|lia]).
  - destruct (advance_forced state state' w w' evs) as (step & _ & _ & _ & Hfin');
      [lia | exact Hadv |].
    rewrite (run_loop_finished fuel state' w' (S done) Hfin').
    split; [lia | exact Hfin'].
  - destruct (advance_appends _ _ _ _ _ _ _ _ _ _ Hadv) as [step ->].
    specialize (IH fuel (append_update state step) w' (S done)).
    destruct (run_loop World prompt_handler tool_handler agent (Some env)
                fuel (append_update state step) w' (S done))
      as [s k | e s k | s k].
    + destruct IH as [Hk Hs];
        [simpl; rewrite length_app; simpl; lia | lia |].
      split; [lia | exact Hs].
    + assert (k <= S done + gap)
        by (apply IH; [simpl; rewrite length_app; simpl; lia | lia]). lia.
    + apply IH; [simpl; rewrite length_app; simpl; lia | lia].
Qed.

Lemma run_loop_does_not_abort (fuel : nat) :
  collaborators_return World prompt_handler tool_handler agent ->
  forall (state : ReActState) (w : World) (done : nat) e state' iterations,
    run_loop World prompt_handler tool_handler agent (Some env)
      fuel state w done <> Aborted e state' iterations.
Proof.
  intros Hret.
  induction fuel as [|fuel IH]; intros state w done e s k; simpl;
    destruct (ReActAgent.is_finished agent state); try discriminate.
  destruct (advance_returns state w Hret) as (state' & evs & w' & ->).
  apply IH.
Qed.

End BoundedLoop.

(** The default parser with the stand-in extractor always returns a step. *)
Lemma react_parse_default_returns (ERROR_STRING text : string) :
  exists step, react_parse_default ERROR_STRING text = Return step.
Proof.
  unfold react_parse_default, react_parse, react_parse_body.
  destruct (act_span _ _ _) as [a_s a_e].
  destruct (thought_span _ _ _) as [t_s t_e].
  destruct (finish_span _ _ _) as [f_s f_e].
  destruct (a_s <? f_s)%nat.
  - unfold quoted_call_extractor.
    destruct (index 0 _ (strip (slice_from text a_e))) as [i|];
      [|simpl; now eauto].
    destruct (index 0 _ _) as [j|]; [|simpl; now eauto].
    destruct (j + 2 =? _)%nat; simpl; now eauto.
  - destruct (f_s <? a_s)%nat; simpl; now eauto.
Qed.

(** C2. With [max_steps = N >= 0], the loop started in the initial state and
    allowed any number of iterations beyond [N + 1] stops within [N + 1]
    iterations: it is never still running after them, whatever the replies
    are; an exception of a collaborator can only end it earlier; and when the
    prompt, the tools and the parser return, it ends in a FINISHED state. An
    iteration in a state that holds at least [N] steps appends a forced step
    that is finished and has no action. *)
Theorem loop_finishes_within_max_steps_plus_one :
  forall (World : Type)
         (prompt_handler : PromptRequest -> World -> Result string * World)
         (tool_handler : string -> list PyValue -> list (string * PyValue)
                         -> World -> Result PyValue * World)
         (agent : ReActAgent.t) (env : PythonToolUseEnvironment)
         (task : string) (w : World) (N : Z) (extra : nat),
    (0 <= N)%Z ->
    ReActAgent.max_steps agent = N ->
    let result :=
      run_loop World prompt_handler tool_handler agent (Some env)
        (Z.to_nat N + 1 + extra) (ReActAgent.initialize_state agent task) w 0 in
    match result with
    | Finished state iterations =>
        iterations <= Z.to_nat N + 1 /\
        ReActAgent.is_finished agent state = true
    | Aborted _ _ iterations => iterations <= Z.to_nat N
    | StillRunning _ _ => False
    end
    /\
    (collaborators_return World prompt_handler tool_handler agent ->
     exists state iterations,
       result = Finished state iterations /\
       iterations <= Z.to_nat N + 1 /\
       ReActAgent.is_finished agent state = true)
    /\
    (forall state w0 state' evs w',
       (Z.of_nat (List.length (updates state)) >= N)%Z ->
       advance World prompt_handler tool_handler agent (Some env) state w0
       = (Return state', evs, w') ->
       exists step,
         state' = append_update state step /\
         is_finished step = true /\ action step = None /\
         ReActAgent.is_finished agent state' = true).
Proof.
  intros World ph th agent env task w N extra HN Hmax result.
  assert (Hstops :
    match result with
    | Finished state iterations =>
        iterations <= Z.to_nat N + 1 /\
        ReActAgent.is_finished agent state = true
    | Aborted _ _ iterations => iterations <= Z.to_nat N
    | StillRunning _ _ => False
    end).
  { pose proof (run_loop_stops World ph th agent env (Z.to_nat N)
                  (Z.to_nat N + 1 + extra)
                  (ReActAgent.initialize_state agent task) w 0) as H.
    fold result in H.
    destruct result as [s k | e s k | s k].
    - destruct H as [Hk Hs]; [simpl; lia | lia |]. split; [lia | exact Hs].
    - apply H; [simpl; lia | lia].
    - apply H; [simpl; lia | lia]. }
  split; [exact Hstops|]. split.
  - intros Hret.
    pose proof (run_loop_does_not_abort World ph th agent env
                  (Z.to_nat N + 1 + extra) Hret
                  (ReActAgent.initialize_state agent task) w 0) as Hno.
    fold result in Hno.
    destruct result as [s k | e s k | s k].
    + exists s, k. now repeat split.
    + now destruct (Hno e s k).
    + contradiction.
  - intros state w0 state' evs w' Hforce Hadv.
    apply (advance_forced World ph th agent env state state' w0 w' evs);
      [lia | exact Hadv].
Qed.

Lemma loop_finishes_within_max_steps_plus_one_witness :
  exists state iterations,
    run_loop Scripted.World Scripted.prompt_handler Scripted.tool_handler
      (Scripted.agent 2) (Some Scripted.environment) (Z.to_nat 2 + 1 + 5)
      (ReActAgent.initialize_state (Scripted.agent 2) "How tall is K2?")
      [reply_unsure; reply_bad_call; reply_search; reply_finish] 0
    = Finished state iterations /\
    iterations <= Z.to_nat 2 + 1 /\
    ReActAgent.is_finished (Scripted.agent 2) state = true.
Proof.
  apply (loop_finishes_within_max_steps_plus_one
           Scripted.World Scripted.prompt_handler Scripted.tool_handler
           (Scripted.agent 2) Scripted.environment "How tall is K2?"
           [reply_unsure; reply_bad_call; reply_search; reply_finish] 2 5).
  - lia.
  - reflexivity.
  - split; [|split].
    + intros req [|reply script]; eexists; eexists; reflexivity.
    + intros name tool_args tool_kwargs script. eexists; eexists; reflexivity.
    + intros text. apply react_parse_default_returns.
Defined.

(** * Further properties *)

(** ** The reply parser *)

Lemma strip_idempotent (s : string) : strip (strip s) = strip s.
Proof.
  destruct (strip_head s) as [E | (a & r & E & Ha)].
  - now rewrite E.
  - unfold strip at 1. rewrite E. simpl lstrip. rewrite Ha.
    rewrite <- E. apply strip_rstrip.
Qed.



(** X2. When the first matches of the action marker and of the finish marker
    start at the same position, both markers being found or not,
    [react_parse] takes neither branch: it returns the error step that says
    that the markers were not found. *)
Theorem react_parse_markers_at_same_start :
  forall re_search parse_and_consume_call ERROR_STRING reply_text
         action_pattern thought_pattern finish_pattern final_stop_sequence
         start act_end finish_end,
    act_span re_search action_pattern reply_text = (start, act_end) ->
    finish_span re_search finish_pattern reply_text = (start, finish_end) ->
    react_parse re_search parse_and_consume_call ERROR_STRING reply_text
      action_pattern thought_pattern finish_pattern final_stop_sequence
    = Return {| is_finished := false;
                thought := "";
                action := None;
                observation :=
                  PyStr (ERROR_STRING ++ ": Didn't find " ++ action_pattern
                         ++ " or " ++ finish_pattern);
                fmt := None |}.
Proof.
  intros rs pc err text ap tp fp fss start a_e f_e Ea Ef.
  destruct (thought_span rs tp text) as [t_s t_e] eqn:Et.
  unfold react_parse.
  rewrite (body_none_first rs pc text ap tp fp fss start a_e t_s t_e start f_e
             Ea Et Ef eq_refl).
  reflexivity.
Qed.

Lemma react_parse_markers_at_same_start_witness :
  react_parse re_search_literal quoted_call_extractor "#ERROR#" reply_finish
    default_finish_pattern default_thought_pattern default_finish_pattern
    default_final_stop_sequence
  = Return {| is_finished := false;
              thought := "";
              action := None;
              observation :=
                PyStr "#ERROR#: Didn't find \[Finish\]: or \[Finish\]:";
              fmt := None |}.
Proof.
  apply (react_parse_markers_at_same_start
           re_search_literal quoted_call_extractor "#ERROR#" reply_finish
           default_finish_pattern default_thought_pattern
           default_finish_pattern default_final_stop_sequence 0 9 9);
    reflexivity.
Defined.

(** X3. A step that [react_parse] returns has either an action or an
    observation, never both and never neither: with an action it has a
    format, no observation, and is finished exactly when the action is named
    Finish; without an action it has no format and its observation is a
    text. *)
Theorem react_parse_step_shape :
  forall re_search parse_and_consume_call ERROR_STRING reply_text
         action_pattern thought_pattern finish_pattern final_stop_sequence step,
    react_parse re_search parse_and_consume_call ERROR_STRING reply_text
      action_pattern thought_pattern finish_pattern final_stop_sequence
    = Return step ->
    match action step with
    | Some call =>
        observation step = PyNone /\
        fmt step <> None /\
        is_finished step = String.eqb (function_name call) "Finish"
    | None =>
        (exists text, observation step = PyStr text) /\ fmt step = None
    end.
Proof.
  intros rs pc err text ap tp fp fss step.
  destruct (act_span rs ap text) as [a_s a_e] eqn:Ea.
  destruct (thought_span rs tp text) as [t_s t_e] eqn:Et.
  destruct (finish_span rs fp text) as [f_s f_e] eqn:Ef.
  unfold react_parse.
  destruct (lt_eq_lt_dec a_s f_s) as [[Hlt | Heq] | Hgt].
  - rewrite (body_act_first rs pc text ap tp fp fss a_s a_e t_s t_e f_s f_e
               Ea Et Ef Hlt).
    destruct (pc (strip (slice_from text a_e)))
      as [[[[fn args] kwargs] fmt] | [msg | kind msg]]; simpl;
      intros H; try discriminate H; injection H as <-; simpl.
    + repeat split. discriminate.
    + split; [now eexists | reflexivity].
  - rewrite (body_none_first rs pc text ap tp fp fss a_s a_e t_s t_e f_s f_e
               Ea Et Ef Heq).
    simpl. intros H. injection H as <-. simpl.
    split; [now eexists | reflexivity].
  - rewrite (body_finish_first rs pc text ap tp fp fss a_s a_e t_s t_e f_s f_e
               Ea Et Ef Hgt).
    simpl. intros H. injection H as <-. simpl.
    split; [now eexists | reflexivity].
Qed.

Lemma react_parse_step_shape_witness :
  react_parse_default "#ERROR#" reply_search
  = Return {| is_finished := false;
              thought := "t";
              action := Some (mkFunctionCall "Search" [PyStr "x"] []);
              observation := PyNone;
              fmt := Some PYTHON |}
  /\
  (PyNone = PyNone /\
   Some PYTHON <> None /\
   false = String.eqb "Search" "Finish").
Proof.
  split; [reflexivity|].
  apply (react_parse_step_shape
           re_search_literal quoted_call_extractor "#ERROR#" reply_search
           default_action_pattern default_thought_pattern
           default_finish_pattern default_final_stop_sequence
           {| is_finished := false;
              thought := "t";
              action := Some (mkFunctionCall "Search" [PyStr "x"] []);
              observation := PyNone;
              fmt := Some PYTHON |}).
  reflexivity.
Defined.

(** X4. The texts that [react_parse] extracts carry no white space at their
    ends: the thought of every step it returns, and the final answer of every
    finished step without an action, are unchanged by [strip]. *)
Theorem react_parse_texts_are_stripped :
  forall re_search parse_and_consume_call ERROR_STRING reply_text
         action_pattern thought_pattern finish_pattern final_stop_sequence step,
    react_parse re_search parse_and_consume_call ERROR_STRING reply_text
      action_pattern thought_pattern finish_pattern final_stop_sequence
    = Return step ->
    strip (thought step) = thought step /\
    (is_finished step = true -> action step = None ->
     exists answer,
       observation step = PyStr answer /\ strip answer = answer).
Proof.
  intros rs pc err text ap tp fp fss step.
  destruct (act_span rs ap text) as [a_s a_e] eqn:Ea.
  destruct (thought_span rs tp text) as [t_s t_e] eqn:Et.
  destruct (finish_span rs fp text) as [f_s f_e] eqn:Ef.
  unfold react_parse.
  destruct (lt_eq_lt_dec a_s f_s) as [[Hlt | Heq] | Hgt].
  - rewrite (body_act_first rs pc text ap tp fp fss a_s a_e t_s t_e f_s f_e
               Ea Et Ef Hlt).
    destruct (pc (strip (slice_from text a_e)))
      as [[[[fn args] kwargs] fmt] | [msg | kind msg]]; simpl;
      intros H; try discriminate H; injection H as <-; simpl.
    + split; [|discriminate].
      destruct (t_s <? a_s)%nat; [apply strip_idempotent | reflexivity].
    + split; [reflexivity | discriminate].
  - rewrite (body_none_first rs pc text ap tp fp fss a_s a_e t_s t_e f_s f_e
               Ea Et Ef Heq).
    simpl. intros H. injection H as <-. simpl.
    split; [reflexivity | discriminate].
  - rewrite (body_finish_first rs pc text ap tp fp fss a_s a_e t_s t_e f_s f_e
               Ea Et Ef Hgt).
    simpl. intros H. injection H as <-. simpl. split.
    + destruct (t_s <? f_s)%nat; [apply strip_idempotent | reflexivity].
    + intros _ _. eexists. split; [reflexivity|].
      unfold final_answer_of.
      destruct fss as [sep|]; [|apply strip_idempotent].
      destruct (truthy sep); apply strip_idempotent.
Qed.

Lemma react_parse_texts_are_stripped_witness :
  react_parse_default "#ERROR#" reply_finish = Return step_238_meters /\
  (strip (thought step_238_meters) = thought step_238_meters /\
   (is_finished step_238_meters = true -> action step_238_meters = None ->
    exists answer,
      observation step_238_meters = PyStr answer /\ strip answer = answer)).
Proof.
  split; [reflexivity|].
  apply (react_parse_texts_are_stripped
           re_search_literal quoted_call_extractor "#ERROR#" reply_finish
           default_action_pattern default_thought_pattern
           default_finish_pattern default_final_stop_sequence step_238_meters).
  reflexivity.
Defined.

(** Occurrences of a text in another: facts on [append], [substring] and
    [index]. *)
Lemma append_assoc (a b c : string) : (a ++ b) ++ c = a ++ b ++ c.
Proof. induction a as [|x a IH]; simpl; [reflexivity | now rewrite IH]. Qed.

Lemma append_empty_r (a : string) : a ++ "" = a.
Proof. induction a as [|x a IH]; simpl; [reflexivity | now rewrite IH]. Qed.

Lemma length_append (a b : string) :
  String.length (a ++ b) = String.length a + String.length b.
Proof. induction a as [|x a IH]; simpl; [reflexivity | now rewrite IH]. Qed.

Lemma substring_prefix_split (s : string) :
  forall m, exists b, s = substring 0 m s ++ b.
Proof.
  induction s as [|c s IH]; intros [|m]; simpl.
  - now exists "".
  - now exists "".
  - now exists (String c s).
  - destruct (IH m) as [b Hb]. exists b. now rewrite <- Hb.
Qed.

Lemma substring_split (s : string) :
  forall n m, exists a b, s = a ++ substring n m s ++ b.
Proof.
  induction s as [|c s IH]; intros n m.
  - exists "", "". now destruct n, m.
  - destruct n as [|n].
    + destruct (substring_prefix_split (String c s) m) as [b Hb].
      now exists "", b.
    + destruct (IH n m) as (a & b & Hab). exists (String c a), b.
      simpl. now rewrite <- Hab.
Qed.

Lemma length_substring_prefix (s : string) :
  forall m, String.length (substring 0 m s) <= m.
Proof.
  induction s as [|c s IH]; intros [|m]; simpl; try lia.
  specialize (IH m). lia.
Qed.

Lemma substring_of_prefix (x b : string) :
  substring 0 (String.length x) (x ++ b) = x.
Proof.
  induction x as [|c x IH]; simpl.
  - now destruct b.
  - now rewrite IH.
Qed.

Lemma substring_middle (a x b : string) :
  substring (String.length a) (String.length x) (a ++ x ++ b) = x.
Proof.
  induction a as [|c a IH]; simpl; [apply substring_of_prefix | exact IH].
Qed.

Lemma index_none_of_no_occurrence (sep s : string) :
  (forall a b, s <> a ++ sep ++ b) -> index 0 sep s = None.
Proof.
  intros Hno. destruct (index 0 sep s) as [m|] eqn:E; [|reflexivity].
  apply index_correct1 in E.
  destruct (substring_split s m (String.length sep)) as (a & b & Hab).
  rewrite E in Hab. now destruct (Hno a b).
Qed.

Lemma no_occurrence_of_index_none (sep s : string) :
  sep <> "" -> index 0 sep s = None -> forall a b, s <> a ++ sep ++ b.
Proof.
  intros Hsep E a b ->.
  apply (index_correct3 0 (String.length a) sep (a ++ sep ++ b) E Hsep);
    [lia | apply substring_middle].
Qed.

Lemma split_head_no_occurrence (sep s : string) :
  sep <> "" -> forall a b, split_head sep s <> a ++ sep ++ b.
Proof.
  intros Hsep a b. unfold split_head.
  destruct (index 0 sep s) as [i|] eqn:E;
    [|now apply no_occurrence_of_index_none].
  intros Hocc.
  destruct (substring_prefix_split s i) as [r Hr].
  rewrite Hocc, !append_assoc in Hr.
  pose proof (length_substring_prefix s i) as Hlen.
  rewrite Hocc, !length_append in Hlen.
  assert (0 < String.length sep) by (destruct sep; [contradiction | simpl; lia]).
  apply (index_correct2 0 i sep s E (String.length a)); [lia | lia |].
  rewrite Hr at 1. apply substring_middle.
Qed.

Lemma lstrip_suffix (s : string) : exists pre, s = pre ++ lstrip s.
Proof.
  induction s as [|c s [pre IH]]; simpl; [now exists ""|].
  destruct (is_space c); [|now exists ""].
  exists (String c pre). simpl. now rewrite <- IH.
Qed.

Lemma rstrip_prefix (s : string) : exists post, s = rstrip s ++ post.
Proof.
  induction s as [|c s [post IH]]; simpl; [now exists ""|].
  destruct (is_space c && is_empty (rstrip s)).
  - now exists (String c s).
  - exists post. simpl. now rewrite <- IH.
Qed.

Lemma strip_no_occurrence (sep s : string) :
  (forall a b, s <> a ++ sep ++ b) ->
  forall a b, strip s <> a ++ sep ++ b.
Proof.
  intros Hno a b Hocc. unfold strip in Hocc.
  destruct (lstrip_suffix s) as [pre Hpre].
  destruct (rstrip_prefix (lstrip s)) as [post Hpost].
  apply (Hno (pre ++ a) (b ++ post)).
  rewrite Hpre at 1. rewrite Hpost at 1. rewrite Hocc.
  now rewrite !append_assoc.
Qed.

(** X5. With a non-empty final stop sequence, the final answer of a finished
    step without an action never contains the stop sequence. *)
Theorem final_answer_has_no_stop_sequence :
  forall re_search parse_and_consume_call ERROR_STRING reply_text
         action_pattern thought_pattern finish_pattern sep step,
    sep <> "" ->
    react_parse re_search parse_and_consume_call ERROR_STRING reply_text
      action_pattern thought_pattern finish_pattern (Some sep)
    = Return step ->
    is_finished step = true ->
    action step = None ->
    exists answer,
      observation step = PyStr answer /\ index 0 sep answer = None.
Proof.
  intros rs pc err text ap tp fp sep step Hsep.
  destruct (act_span rs ap text) as [a_s a_e] eqn:Ea.
  destruct (thought_span rs tp text) as [t_s t_e] eqn:Et.
  destruct (finish_span rs fp text) as [f_s f_e] eqn:Ef.
  unfold react_parse.
  destruct (lt_eq_lt_dec a_s f_s) as [[Hlt | Heq] | Hgt].
  - rewrite (body_act_first rs pc text ap tp fp (Some sep) a_s a_e t_s t_e
               f_s f_e Ea Et Ef Hlt).
    destruct (pc (strip (slice_from text a_e)))
      as [[[[fn args] kwargs] fmt] | [msg | kind msg]]; simpl;
      intros H; try discriminate H; injection H as <-; simpl;
      intros Hfin Hact; discriminate.
  - rewrite (body_none_first rs pc text ap tp fp (Some sep) a_s a_e t_s t_e
               f_s f_e Ea Et Ef Heq).
    simpl. intros H. injection H as <-. simpl. discriminate.
  - rewrite (body_finish_first rs pc text ap tp fp (Some sep) a_s a_e t_s t_e
               f_s f_e Ea Et Ef Hgt).
    simpl. intros H. injection H as <-. simpl. intros _ _.
    eexists. split; [reflexivity|].
    unfold final_answer_of.
    destruct sep as [|c sep]; [contradiction|]. cbn [truthy is_empty negb].
    apply index_none_of_no_occurrence, strip_no_occurrence.
    now apply split_head_no_occurrence.
Qed.

Lemma final_answer_has_no_stop_sequence_witness :
  react_parse_default "#ERROR#"
    ("[Finish]: 238 meters" ++ nl ++ nl ++ "[Question]: next")
  = Return step_238_meters
  /\
  exists answer,
    observation step_238_meters = PyStr answer /\
    index 0 (nl ++ nl) answer = None.
Proof.
  split; [reflexivity|].
  apply (final_answer_has_no_stop_sequence
           re_search_literal quoted_call_extractor "#ERROR#"
           ("[Finish]: 238 meters" ++ nl ++ nl ++ "[Question]: next")
           default_action_pattern default_thought_pattern
           default_finish_pattern (nl ++ nl) step_238_meters);
    [discriminate | reflexivity | reflexivity | reflexivity].
Defined.

(** ** The step function *)

Section StepFacts.

Variable World : Type.
Variable prompt_handler : PromptRequest -> World -> Result string * World.
Variable tool_handler :
  string -> list PyValue -> list (string * PyValue) -> World
  -> Result PyValue * World.
Variable agent : ReActAgent.t.
Variable state : ReActState.

(** One run of the step function with an environment, by cases on what the
    collaborators answer. *)
Lemma run_step_cases (env : PythonToolUseEnvironment) (w : World) :
  let force :=
    (Z.of_nat (List.length (updates state)) >=? ReActAgent.max_steps agent)%Z in
  let req := ReActAgent.prompt_kwargs agent state env force in
  run World prompt_handler tool_handler
    (ReActAgent._sample_single_next_step agent state (Some env)) w
  = match prompt_handler req w with
    | (Raise e, w1) => (Raise e, [PromptCalled req], w1)
    | (Return reply, w1) =>
        if force then
          (Return {| is_finished := true; thought := ""; action := None;
                     observation := PyStr (strip (strip reply ++ nl));
                     fmt := None |},
           [PromptCalled req], w1)
        else
          match ReActAgent.parse agent (strip reply ++ nl) with
          | Raise e => (Raise e, [PromptCalled req], w1)
          | Return next_step =>
              match action next_step with
              | None => (Return next_step, [PromptCalled req], w1)
              | Some call =>
                  let called :=
                    ToolCalled (function_name call) (args call) (kwargs call) in
                  match tool_handler (function_name call) (args call)
                          (kwargs call) w1 with
                  | (Return v, w2) =>
                      (Return (set_observation next_step v),
                       [PromptCalled req; called], w2)
                  | (Raise e, w2) => (Raise e, [PromptCalled req; called], w2)
                  end
              end
          end
    end.
Proof.
  intros force req. unfold ReActAgent._sample_single_next_step.
  fold force. fold req. simpl.
  destruct (prompt_handler req w) as [[reply | e] w1]; [|reflexivity].
  destruct force; [reflexivity|].
  destruct (ReActAgent.parse agent (strip reply ++ nl)) as [next_step | e];
    [|reflexivity].
  destruct (action next_step) as [call|]; [|reflexivity].
  simpl.
  now destruct (tool_handler (function_name call) (args call) (kwargs call) w1)
    as [[v | e] w2].
Qed.

End StepFacts.

(** X6. When the step is not forced and the parsed step has no action, the
    step function returns the parsed step as it is and calls nothing but the
    prompt: the tool environment is not used. *)
Theorem unforced_step_without_action_is_returned_as_parsed :
  forall (World : Type)
         (prompt_handler : PromptRequest -> World -> Result string * World)
         (tool_handler : string -> list PyValue -> list (string * PyValue)
                         -> World -> Result PyValue * World)
         (agent : ReActAgent.t) (state : ReActState)
         (env : PythonToolUseEnvironment) (w w1 : World)
         (reply : string) (next_step : ReActStep),
    (Z.of_nat (List.length (updates state)) < ReActAgent.max_steps agent)%Z ->
    prompt_handler (ReActAgent.prompt_kwargs agent state env false) w
      = (Return reply, w1) ->
    ReActAgent.parse agent (strip reply ++ nl) = Return next_step ->
    action next_step = None ->
    run World prompt_handler tool_handler
      (ReActAgent._sample_single_next_step agent state (Some env)) w
    = (Return next_step,
       [PromptCalled (ReActAgent.prompt_kwargs agent state env false)], w1).
Proof.
  intros World ph th agent state env w w1 reply next_step Hsteps Hprompt
         Hparse Hact.
  rewrite run_step_cases.
  replace (Z.of_nat (List.length (updates state))
           >=? ReActAgent.max_steps agent)%Z with false
    by (symmetry; rewrite Z.geb_leb; apply Z.leb_gt; lia).
  now rewrite Hprompt, Hparse, Hact.
Qed.

Lemma unforced_step_without_action_is_returned_as_parsed_witness :
  run Scripted.World Scripted.prompt_handler Scripted.tool_handler
    (ReActAgent._sample_single_next_step (Scripted.agent 10)
       (ReActAgent.initialize_state (Scripted.agent 10) "How tall is K2?")
       (Some Scripted.environment))
    [reply_bad_call; reply_finish]
  = (Return (error_step "#ERROR#" "Not a call: Search(x"),
     [PromptCalled
        (ReActAgent.prompt_kwargs (Scripted.agent 10)
           (ReActAgent.initialize_state (Scripted.agent 10) "How tall is K2?")
           Scripted.environment false)],
     [reply_finish]).
Proof.
  apply (unforced_step_without_action_is_returned_as_parsed
           Scripted.World Scripted.prompt_handler Scripted.tool_handler
           (Scripted.agent 10)
           (ReActAgent.initialize_state (Scripted.agent 10) "How tall is K2?")
           Scripted.environment [reply_bad_call; reply_finish] [reply_finish]
           reply_bad_call (error_step "#ERROR#" "Not a call: Search(x"));
    [simpl; lia | reflexivity | reflexivity | reflexivity].
Defined.

(** X7. When the step is not forced and the parsed step has an action, the
    step function calls the tool environment exactly once, after the prompt,
    with the name and the arguments of the action, and returns the parsed
    step with the returned value as its observation and every other field
    unchanged, whatever the parser and the name of the tool are. *)
Theorem unforced_step_with_action_runs_the_tool_once :
  forall (World : Type)
         (prompt_handler : PromptRequest -> World -> Result string * World)
         (tool_handler : string -> list PyValue -> list (string * PyValue)
                         -> World -> Result PyValue * World)
         (agent : ReActAgent.t) (state : ReActState)
         (env : PythonToolUseEnvironment) (w w1 w2 : World)
         (reply : string) (next_step : ReActStep) (call : FunctionCall)
         (v : PyValue),
    (Z.of_nat (List.length (updates state)) < ReActAgent.max_steps agent)%Z ->
    prompt_handler (ReActAgent.prompt_kwargs agent state env false) w
      = (Return reply, w1) ->
    ReActAgent.parse agent (strip reply ++ nl) = Return next_step ->
    action next_step = Some call ->
    tool_handler (function_name call) (args call) (kwargs call) w1
      = (Return v, w2) ->
    exists step,
      run World prompt_handler tool_handler
        (ReActAgent._sample_single_next_step agent state (Some env)) w
      = (Return step,
         [PromptCalled (ReActAgent.prompt_kwargs agent state env false);
          ToolCalled (function_name call) (args call) (kwargs call)], w2) /\
      observation step = v /\
      is_finished step = is_finished next_step /\
      thought step = thought next_step /\
      action step = Some call /\
      fmt step = fmt next_step.
Proof.
  intros World ph th agent state env w w1 w2 reply next_step call v Hsteps
         Hprompt Hparse Hact Htool.
  exists (set_observation next_step v).
  rewrite run_step_cases.
  replace (Z.of_nat (List.length (updates state))
           >=? ReActAgent.max_steps agent)%Z with false
    by (symmetry; rewrite Z.geb_leb; apply Z.leb_gt; lia).
  rewrite Hprompt, Hparse, Hact. cbv zeta. rewrite Htool.
  now repeat split.
Qed.

Lemma unforced_step_with_action_runs_the_tool_once_witness :
  exists step,
    run Scripted.World Scripted.prompt_handler Scripted.tool_handler
      (ReActAgent._sample_single_next_step (Scripted.agent 10)
         (ReActAgent.initialize_state (Scripted.agent 10) "How tall is K2?")
         (Some Scripted.environment))
      [reply_search]
    = (Return step,
       [PromptCalled
          (ReActAgent.prompt_kwargs (Scripted.agent 10)
             (ReActAgent.initialize_state (Scripted.agent 10) "How tall is K2?")
             Scripted.environment false);
        ToolCalled "Search" [PyStr "x"] []], []) /\
    observation step = PyStr "result of Search" /\
    is_finished step = false /\
    thought step = "t" /\
    action step = Some (mkFunctionCall "Search" [PyStr "x"] []) /\
    fmt step = Some PYTHON.
Proof.
  apply (unforced_step_with_action_runs_the_tool_once
           Scripted.World Scripted.prompt_handler Scripted.tool_handler
           (Scripted.agent 10)
           (ReActAgent.initialize_state (Scripted.agent 10) "How tall is K2?")
           Scripted.environment [reply_search] [] [] reply_search
           {| is_finished := false;
              thought := "t";
              action := Some (mkFunctionCall "Search" [PyStr "x"] []);
              observation := PyNone;
              fmt := Some PYTHON |}
           (mkFunctionCall "Search" [PyStr "x"] [])
           (PyStr "result of Search"));
    [simpl; lia | reflexivity | reflexivity | reflexivity | reflexivity].
Defined.

(** X8. The step function raises in four situations only, and then what it
    raises is the exception it met: no environment (a ValueError, before any
    call); the prompt raised; the step is not forced and the parser raised
    (after the prompt only); the step is not forced and the tool raised
    (after the prompt and that one tool call). A forced step can raise only
    through the prompt. *)
Theorem step_raises_only_what_it_meets :
  forall (World : Type)
         (prompt_handler : PromptRequest -> World -> Result string * World)
         (tool_handler : string -> list PyValue -> list (string * PyValue)
                         -> World -> Result PyValue * World)
         (agent : ReActAgent.t) (state : ReActState)
         (environment : option PythonToolUseEnvironment)
         (w w' : World) (e : PyExn) (evs : list Event),
    run World prompt_handler tool_handler
      (ReActAgent._sample_single_next_step agent state environment) w
    = (Raise e, evs, w') ->
    let force :=
      (Z.of_nat (List.length (updates state)) >=? ReActAgent.max_steps agent)%Z in
    (environment = None /\
     e = ValueError "Environment must be specified for this agent." /\
     evs = [] /\ w' = w)
    \/
    (exists env,
       environment = Some env /\
       let req := ReActAgent.prompt_kwargs agent state env force in
       (prompt_handler req w = (Raise e, w') /\ evs = [PromptCalled req])
       \/
       (exists reply,
          force = false /\
          prompt_handler req w = (Return reply, w') /\
          ReActAgent.parse agent (strip reply ++ nl) = Raise e /\
          evs = [PromptCalled req])
       \/
       (exists reply w1 next_step call,
          force = false /\
          prompt_handler req w = (Return reply, w1) /\
          ReActAgent.parse agent (strip reply ++ nl) = Return next_step /\
          action next_step = Some call /\
          tool_handler (function_name call) (args call) (kwargs call) w1
            = (Raise e, w') /\
          evs = [PromptCalled req;
                 ToolCalled (function_name call) (args call) (kwargs call)])).
Proof.
  intros World ph th agent state [env|] w w' e evs Hrun force.
  - right. exists env. split; [reflexivity|]. cbv zeta.
    rewrite run_step_cases in Hrun. fold force in Hrun.
    destruct (ph (ReActAgent.prompt_kwargs agent state env force) w)
      as [[reply | e0] w1] eqn:Hprompt.
    + destruct force eqn:Hforce; [discriminate Hrun|].
      destruct (ReActAgent.parse agent (strip reply ++ nl))
        as [next_step | e0] eqn:Hparse.
      * destruct (action next_step) as [call|] eqn:Hact; [|discriminate Hrun].
        cbv zeta in Hrun.
        destruct (th (function_name call) (args call) (kwargs call) w1)
          as [[v | e0] w2] eqn:Htool; [discriminate Hrun|].
        injection Hrun as <- <- <-. right. right.
        exists reply, w1, next_step, call. now repeat split.
      * injection Hrun as <- <- <-. right. left. exists reply.
        now repeat split.
    + injection Hrun as <- <- <-. left. now split.
  - left. simpl in Hrun. injection Hrun as <- <- <-. now repeat split.
Qed.

Lemma step_raises_only_what_it_meets_witness :
  run Scripted.World Scripted.prompt_handler Scripted.tool_handler
    (ReActAgent._sample_single_next_step (Scripted.agent 10)
       (ReActAgent.initialize_state (Scripted.agent 10) "How tall is K2?")
       None)
    [reply_search]
  = (Raise (ValueError "Environment must be specified for this agent."),
     [], [reply_search])
  /\
  exists reply,
    Scripted.prompt_handler
      (ReActAgent.prompt_kwargs
         {| ReActAgent.parse :=
              fun text =>
                react_parse re_search_literal failing_extractor "#ERROR#" text
                  default_action_pattern default_thought_pattern
                  default_finish_pattern default_final_stop_sequence;
            ReActAgent.exemplars := [];
            ReActAgent.environment_config := config Scripted.environment;
            ReActAgent.max_steps := 10;
            ReActAgent.stop_prefix := "" |}
         {| inputs := "How tall is K2?"; updates := [] |}
         Scripted.environment false)
      [reply_search]
    = (Return reply, []) /\
    react_parse re_search_literal failing_extractor "#ERROR#"
      (strip reply ++ nl)
      default_action_pattern default_thought_pattern
      default_finish_pattern default_final_stop_sequence
    = Raise (OtherException "SyntaxError"
               ("invalid syntax: Search(" ++ dquote ++ "x" ++ dquote ++ ")")).
Proof.
  split; [reflexivity|].
  destruct (step_raises_only_what_it_meets
              Scripted.World Scripted.prompt_handler Scripted.tool_handler
              {| ReActAgent.parse :=
                   fun text =>
                     react_parse re_search_literal failing_extractor "#ERROR#"
                       text default_action_pattern default_thought_pattern
                       default_finish_pattern default_final_stop_sequence;
                 ReActAgent.exemplars := [];
                 ReActAgent.environment_config := config Scripted.environment;
                 ReActAgent.max_steps := 10;
                 ReActAgent.stop_prefix := "" |}
              {| inputs := "How tall is K2?"; updates := [] |}
              (Some Scripted.environment) [reply_search] []
              (OtherException "SyntaxError"
                 ("invalid syntax: Search(" ++ dquote ++ "x" ++ dquote ++ ")"))
              [PromptCalled
                 (ReActAgent.prompt_kwargs
                    {| ReActAgent.parse :=
                         fun text =>
                           react_parse re_search_literal failing_extractor
                             "#ERROR#" text default_action_pattern
                             default_thought_pattern default_finish_pattern
                             default_final_stop_sequence;
                       ReActAgent.exemplars := [];
                       ReActAgent.environment_config :=
                         config Scripted.environment;
                       ReActAgent.max_steps := 10;
                       ReActAgent.stop_prefix := "" |}
                    {| inputs := "How tall is K2?"; updates := [] |}
                    Scripted.environment false)]
              eq_refl)
    as [(Hnone & _) | (env & Henv & [(Hp & _) | [Hparse | Htool]])].
  - discriminate Hnone.
  - discriminate Hp.
  - destruct Hparse as (reply & _ & Hp & Hr & _). exists reply. now split.
  - destruct Htool as (reply & w1 & next_step & call & _ & Hp & Hr & _).
    injection Hp as <- <-. discriminate Hr.
Defined.

(** X9. The stop sequences that the step function passes to the prompt are
    never empty, and both the question marker and the observation marker of
    the prompt template begin with one of them, whatever the stop prefix is:
    a reply is cut at the start of either turn. *)
Theorem stop_sequences_cut_question_and_observe_turns :
  forall (agent : ReActAgent.t),
    ReActAgent._get_stop_sequences agent <> [] /\
    existsb (fun seq => prefix seq (question_marker (ReActAgent.stop_prefix agent)))
      (ReActAgent._get_stop_sequences agent) = true /\
    existsb (fun seq => prefix seq (observe_marker (ReActAgent.stop_prefix agent)))
      (ReActAgent._get_stop_sequences agent) = true.
Proof.
  intros agent. unfold ReActAgent._get_stop_sequences.
  destruct (ReActAgent.stop_prefix agent) as [|c p].
  - repeat split. discriminate.
  - assert (Hprefix : forall rest,
              prefix ("[" ++ String c p) ("[" ++ String c p ++ rest) = true).
    { intros rest. apply prefix_correct.
      rewrite <- append_assoc. apply substring_of_prefix. }
    split; [discriminate|].
    change (truthy (String c p)) with true. cbv iota.
    unfold question_marker, observe_marker. cbn [existsb].
    now rewrite !Hprefix.
Qed.

(** X10. When the last step is finished and its observation is absent, as
    after a Finish tool that returned [None], the state is FINISHED and
    [extract_output] returns the same text as in the initial state: the
    output does not tell a finished run without an answer from a run that
    has not finished. *)
Theorem extract_output_of_absent_answer :
  forall (agent : ReActAgent.t) (state : ReActState)
         (earlier : list ReActStep) (last_step : ReActStep),
    updates state = (earlier ++ [last_step])%list ->
    is_finished last_step = true ->
    observation last_step = PyNone ->
    ReActAgent.is_finished agent state = true /\
    ReActAgent.is_finished agent
      (ReActAgent.initialize_state agent (inputs state)) = false /\
    ReActAgent.extract_output agent state
    = ReActAgent.extract_output agent
        (ReActAgent.initialize_state agent (inputs state)).
Proof.
  intros agent state earlier last_step E Hfin Hobs. split; [|split].
  - now rewrite (is_finished_snoc agent state earlier last_step E).
  - reflexivity.
  - unfold ReActAgent.extract_output.
    rewrite !last_update_of_updates, E, rev_app_distr. simpl.
    now rewrite Hfin, Hobs.
Qed.

Lemma extract_output_of_absent_answer_witness :
  ReActAgent.is_finished (Scripted.agent 10)
    {| inputs := "Say nothing.";
       updates := [{| is_finished := true;
                      thought := "";
                      action := Some (mkFunctionCall "Finish" [] []);
                      observation := PyNone;
                      fmt := Some PYTHON |}] |} = true /\
  ReActAgent.is_finished (Scripted.agent 10)
    (ReActAgent.initialize_state (Scripted.agent 10) "Say nothing.") = false /\
  ReActAgent.extract_output (Scripted.agent 10)
    {| inputs := "Say nothing.";
       updates := [{| is_finished := true;
                      thought := "";
                      action := Some (mkFunctionCall "Finish" [] []);
                      observation := PyNone;
                      fmt := Some PYTHON |}] |}
  = ReActAgent.extract_output (Scripted.agent 10)
      (ReActAgent.initialize_state (Scripted.agent 10) "Say nothing.").
Proof.
  apply (extract_output_of_absent_answer (Scripted.agent 10)
           {| inputs := "Say nothing.";
              updates := [{| is_finished := true;
                             thought := "";
                             action := Some (mkFunctionCall "Finish" [] []);
                             observation := PyNone;
                             fmt := Some PYTHON |}] |}
           []
           {| is_finished := true;
              thought := "";
              action := Some (mkFunctionCall "Finish" [] []);
              observation := PyNone;
              fmt := Some PYTHON |});
    reflexivity.
Defined.

(** ** The result hierarchy of onetwo/core/results.py *)

(** X11. [get_leaf_results] returns at least one result, and it returns
    exactly the results of the hierarchy that have no stages: every result it
    returns lies in the hierarchy and has no stages, and every result of the
    hierarchy without stages is returned. *)
Theorem get_leaf_results_are_the_results_without_stages :
  forall (r : Results.ExecutionResult),
    Results.get_leaf_results r <> [] /\
    (forall x,
       In x (Results.get_leaf_results r) <->
       Results.within r x /\ Results.stages x = []).
Proof.
  intros r. induction r as [r IH] using Results.ExecutionResult_stages_ind.
  destruct r as [name ins outs sts err inf]. simpl in IH.
  destruct sts as [|stage sts].
  - split; [discriminate|]. intros x. simpl. split.
    + intros [<- | []]. split; [constructor | reflexivity].
    + intros [Hin Hleaf]. left.
      inversion Hin as [|stage y Hstage _]; [reflexivity | destruct Hstage].
  - cbn [Results.get_leaf_results]. split.
    + apply Forall_inv in IH as [Hne _]. cbn [flat_map].
      destruct (Results.get_leaf_results stage); [contradiction | discriminate].
    + intros x. rewrite in_flat_map. split.
      * intros (y & Hy & Hx).
        rewrite Forall_forall in IH. apply (IH y Hy) in Hx as [Hin Hleaf].
        split; [|exact Hleaf]. now apply (Results.within_stage _ y).
      * intros [Hin Hleaf].
        inversion Hin as [Hx | y z Hy Hz]; subst.
        -- discriminate Hleaf.
        -- exists y. split; [exact Hy|].
           rewrite Forall_forall in IH. now apply (IH y Hy).
Qed.

Lemma get_leaf_results_are_the_results_without_stages_witness :
  In (Results.mkExecutionResult "reply" [] [] [] "" [])
    (Results.get_leaf_results
       (Results.mkExecutionResult "chain" [] []
          [Results.mkExecutionResult "step" [] []
             [Results.mkExecutionResult "reply" [] [] [] "" []] "" []]
          "" [])).
Proof.
  apply (get_leaf_results_are_the_results_without_stages
           (Results.mkExecutionResult "chain" [] []
              [Results.mkExecutionResult "step" [] []
                 [Results.mkExecutionResult "reply" [] [] [] "" []] "" []]
              "" [])).
  split; [|reflexivity].
  apply (Results.within_stage _
           (Results.mkExecutionResult "step" [] []
              [Results.mkExecutionResult "reply" [] [] [] "" []] "" []));
    [left; reflexivity|].
  apply (Results.within_stage _ (Results.mkExecutionResult "reply" [] [] [] "" []));
    [left; reflexivity | constructor].
Defined.

(** Lines and indentation. *)
Lemma join_cons (line : string) (lines : list string) :
  Textwrap.join (line :: lines) = line ++ Textwrap.join lines.
Proof.
  unfold Textwrap.join. simpl.
  destruct lines; [now rewrite append_empty_r | reflexivity].
Qed.

Lemma join_app (l1 l2 : list string) :
  Textwrap.join (l1 ++ l2) = Textwrap.join l1 ++ Textwrap.join l2.
Proof.
  induction l1 as [|x l1 IH]; [reflexivity|].
  cbn [app]. now rewrite !join_cons, IH, append_assoc.
Qed.

Lemma join_flat_map {A : Type} (f : A -> list string) (l : list A) :
  Textwrap.join (flat_map f l)
  = Textwrap.join (map (fun x => Textwrap.join (f x)) l).
Proof.
  induction l as [|x l IH]; [reflexivity|].
  cbn [flat_map map]. now rewrite join_app, join_cons, IH.
Qed.

Lemma not_boundary_not_cr (c : ascii) :
  Textwrap.is_line_boundary c = false -> Ascii.eqb c "013"%char = false.
Proof.
  intros H. destruct (Ascii.eqb c "013"%char) eqn:E; [|reflexivity].
  apply Ascii.eqb_eq in E. subst c. discriminate H.
Qed.

Lemma splitlines_text_line (body rest : string) :
  Textwrap.has_no_line_break body = true ->
  Textwrap.splitlines (body ++ nl ++ rest)
  = (body ++ nl) :: Textwrap.splitlines rest.
Proof.
  induction body as [|c body IH]; intros Hbody; [reflexivity|].
  simpl in Hbody. apply andb_prop in Hbody as [Hc Hbody].
  apply negb_true_iff in Hc.
  cbn [append Textwrap.splitlines].
  rewrite (not_boundary_not_cr c Hc), Hc, (IH Hbody). reflexivity.
Qed.

Lemma splitlines_join (lines : list string) :
  Forall Textwrap.is_text_line lines ->
  Textwrap.splitlines (Textwrap.join lines) = lines.
Proof.
  induction 1 as [|line lines (body & -> & Hbody & _) _ IH]; [reflexivity|].
  rewrite join_cons, append_assoc, (splitlines_text_line _ _ Hbody).
  now rewrite IH.
Qed.

Lemma indent_text_lines (lines : list string) (prefix : string) :
  Forall Textwrap.is_text_line lines ->
  Textwrap.indent (Textwrap.join lines) prefix
  = Textwrap.join (map (append prefix) lines).
Proof.
  intros Hlines. unfold Textwrap.indent.
  rewrite (splitlines_join lines Hlines). f_equal.
  induction Hlines as [|line lines (body & _ & _ & Hline) _ IH];
    [reflexivity|].
  cbn [map]. now rewrite Hline, IH.
Qed.

Lemma has_no_line_break_app (a b : string) :
  Textwrap.has_no_line_break (a ++ b)
  = Textwrap.has_no_line_break a && Textwrap.has_no_line_break b.
Proof.
  induction a as [|c a IH]; [reflexivity|].
  simpl. now rewrite IH, andb_assoc.
Qed.

Lemma indented_text_line (line : string) :
  Textwrap.is_text_line line -> Textwrap.is_text_line ("  " ++ line).
Proof.
  intros (body & -> & Hbody & Hline).
  exists ("  " ++ body). split; [|split].
  - now rewrite append_assoc.
  - rewrite has_no_line_break_app, Hbody. reflexivity.
  - exact Hline.
Qed.

Lemma name_line_is_text_line (name : string) :
  Textwrap.has_no_line_break name = true ->
  Textwrap.is_text_line
    (if truthy name then "- " ++ name ++ nl else "-" ++ nl).
Proof.
  intros Hname. destruct name as [|c name].
  - exists "-". split; [|split]; reflexivity.
  - exists ("- " ++ String c name). split; [|split].
    + reflexivity.
    + rewrite has_no_line_break_app, Hname. reflexivity.
    + reflexivity.
Qed.

Lemma fold_left_append {A : Type} (g : A -> string) (l : list A) :
  forall acc,
    fold_left (fun acc x => acc ++ g x) l acc = acc ++ Textwrap.join (map g l).
Proof.
  induction l as [|x l IH]; intros acc; cbn [fold_left map].
  - now rewrite append_empty_r.
  - now rewrite IH, join_cons, append_assoc.
Qed.

Lemma map_of_flat_map {A B C : Type} (g : B -> C) (h : A -> list B)
    (l : list A) :
  map g (flat_map h l) = flat_map (fun x => map g (h x)) l.
Proof.
  induction l as [|x l IH]; [reflexivity|].
  cbn [flat_map]. now rewrite map_app, IH.
Qed.

Lemma flat_map_ext_Forall {A B : Type} (f g : A -> list B) (l : list A) :
  Forall (fun x => f x = g x) l -> flat_map f l = flat_map g l.
Proof.
  induction 1 as [|x l Hx _ IH]; [reflexivity|].
  cbn [flat_map]. now rewrite Hx, IH.
Qed.

Lemma name_tree_lines_deeper (r : Results.ExecutionResult) :
  forall depth,
    Results.name_tree_lines (S depth) r
    = map (append "  ") (Results.name_tree_lines depth r).
Proof.
  induction r as [r IH] using Results.ExecutionResult_stages_ind.
  destruct r as [name ins outs sts err inf]. simpl in IH. intros depth.
  cbn [Results.name_tree_lines map]. f_equal.
  - change (String.concat "" (repeat "  " (S depth)))
      with (Textwrap.join ("  " :: repeat "  " depth)).
    now rewrite join_cons, append_assoc.
  - rewrite map_of_flat_map. apply flat_map_ext_Forall.
    revert IH. apply Forall_impl. intros stage Hstage. apply Hstage.
Qed.

Lemma name_tree_lines_are_text_lines (r : Results.ExecutionResult) :
  Results.names_on_one_line r = true ->
  Forall Textwrap.is_text_line (Results.name_tree_lines 0 r).
Proof.
  induction r as [r IH] using Results.ExecutionResult_stages_ind.
  destruct r as [name ins outs sts err inf]. simpl in IH.
  cbn [Results.names_on_one_line Results.name_tree_lines].
  intros Hnames. apply andb_prop in Hnames as [Hname Hstages].
  constructor; [now apply name_line_is_text_line|].
  apply Forall_flat_map. rewrite forallb_forall in Hstages.
  rewrite Forall_forall in *. intros stage Hin.
  rewrite name_tree_lines_deeper. apply Forall_map.
  specialize (IH stage Hin (Hstages stage Hin)).
  revert IH. apply Forall_impl. exact indented_text_line.
Qed.

Lemma apply_formatting_names (r : Results.ExecutionResult) :
  Results.names_on_one_line r = true ->
  Results.get_name_tree r = Textwrap.join (Results.name_tree_lines 0 r).
Proof.
  unfold Results.get_name_tree.
  set (f := fun s : Results.ExecutionResult =>
              if truthy (Results.stage_name s)
              then "- " ++ Results.stage_name s ++ nl else "-" ++ nl).
  induction r as [r IH] using Results.ExecutionResult_stages_ind.
  destruct r as [name ins outs sts err inf]. cbn [Results.stages] in IH.
  intros Hnames. cbn [Results.names_on_one_line] in Hnames.
  apply andb_prop in Hnames as [Hname Hstages].
  rewrite forallb_forall in Hstages.
  cbn [Results.apply_formatting Results.name_tree_lines].
  rewrite join_cons, fold_left_append.
  assert (Hsub :
    map (fun stage => Results.apply_formatting stage f) sts
    = map (fun stage => Textwrap.join (Results.name_tree_lines 0 stage)) sts).
  { apply map_ext_in. intros stage Hin.
    rewrite Forall_forall in IH. apply (IH stage Hin), (Hstages stage Hin). }
  rewrite Hsub, <- join_flat_map.
  change ("" ++ Textwrap.join (flat_map (Results.name_tree_lines 0) sts))
    with (Textwrap.join (flat_map (Results.name_tree_lines 0) sts)).
  rewrite indent_text_lines.
  - f_equal. rewrite map_of_flat_map. f_equal. apply flat_map_ext_Forall.
    apply Forall_forall. intros stage _.
    now rewrite name_tree_lines_deeper.
  - apply Forall_flat_map. apply Forall_forall. intros stage Hin.
    apply name_tree_lines_are_text_lines, (Hstages stage Hin).
Qed.

Lemma name_tree_lines_count (r : Results.ExecutionResult) :
  forall depth,
    List.length (Results.name_tree_lines depth r) = Results.node_count r.
Proof.
  induction r as [r IH] using Results.ExecutionResult_stages_ind.
  destruct r as [name ins outs sts err inf]. simpl in IH. intros depth.
  cbn [Results.name_tree_lines Results.node_count List.length]. f_equal.
  induction IH as [|stage sts Hstage _ IHsts]; [reflexivity|].
  cbn [flat_map fold_right]. now rewrite length_app, Hstage, IHsts.
Qed.

(** X12. When no stage name holds a line boundary, [get_name_tree] is the
    concatenation of one line per result of the hierarchy, a result before
    its stages and the stages in order, each line made of two spaces per
    level of nesting, a dash, and the stage name after a space when the name
    is not empty. *)
Theorem get_name_tree_has_one_line_per_result :
  forall (r : Results.ExecutionResult),
    Results.names_on_one_line r = true ->
    Results.get_name_tree r = Textwrap.join (Results.name_tree_lines 0 r) /\
    Forall Textwrap.is_text_line (Results.name_tree_lines 0 r) /\
    List.length (Results.name_tree_lines 0 r) = Results.node_count r.
Proof.
  intros r Hnames. split; [|split].
  - now apply apply_formatting_names.
  - now apply name_tree_lines_are_text_lines.
  - apply name_tree_lines_count.
Qed.

Lemma get_name_tree_has_one_line_per_result_witness :
  Results.get_name_tree
    (Results.mkExecutionResult "chain" [] []
       [Results.mkExecutionResult "step" [] []
          [Results.mkExecutionResult "" [] [] [] "" []] "" [];
        Results.mkExecutionResult "parse" [] [] [] "" []]
       "" [])
  = "- chain" ++ nl ++ "  - step" ++ nl ++ "    -" ++ nl ++ "  - parse" ++ nl.
Proof.
  apply (get_name_tree_has_one_line_per_result
           (Results.mkExecutionResult "chain" [] []
              [Results.mkExecutionResult "step" [] []
                 [Results.mkExecutionResult "" [] [] [] "" []] "" [];
               Results.mkExecutionResult "parse" [] [] [] "" []]
              "" [])).
  reflexivity.
Defined.

(** ** Trimmed keys and values of onetwo/core/results.py *)

Lemma length_substring (s : string) :
  forall n m,
    String.length (substring n m s) = Nat.min m (String.length s - n).
Proof.
  induction s as [|c s IH]; intros [|n] [|m]; simpl; try reflexivity.
  - rewrite IH. now rewrite Nat.sub_0_r.
  - now rewrite IH.
  - now rewrite IH.
Qed.


(** X13. [_trim_key] returns a key of fewer than 30 characters as it is, and
    turns a longer key into its first 27 characters followed by three dots:
    the result has at most 30 characters, is never longer than the key,
    begins as the key does, and is left unchanged by a second trimming. *)
Theorem trim_key_bounds :
  forall (key : string),
    String.length (Results._trim_key key) <= 30 /\
    String.length (Results._trim_key key) <= String.length key /\
    substring 0 27 (Results._trim_key key) = substring 0 27 key /\
    Results._trim_key (Results._trim_key key) = Results._trim_key key /\
    (String.length key < 30 -> Results._trim_key key = key) /\
    (30 <= String.length key ->
     String.length (Results._trim_key key) = 30 /\
     Results._trim_key key = substring 0 27 key ++ "...").
Proof.
  intros key. destruct (Nat.ltb_spec (String.length key) 30) as [Hlt | Hge].
  - assert (Heq : Results._trim_key key = key).
    { unfold Results._trim_key.
      now rewrite (proj2 (Nat.ltb_lt _ _) Hlt). }
    rewrite !Heq.
    split; [lia|]. split; [lia|]. split; [reflexivity|].
    split; [reflexivity|]. split; [reflexivity|]. intros H. lia.
  - assert (Heq : Results._trim_key key = substring 0 27 key ++ "...").
    { unfold Results._trim_key.
      now rewrite (proj2 (Nat.ltb_ge _ _) Hge). }
    assert (Hp : String.length (substring 0 27 key) = 27)
      by (rewrite length_substring; lia).
    assert (Hlen : String.length (substring 0 27 key ++ "...") = 30)
      by (rewrite length_append, Hp; reflexivity).
    assert (Hpre : substring 0 27 (substring 0 27 key ++ "...")
                   = substring 0 27 key).
    { rewrite <- Hp at 1. apply substring_of_prefix. }
    rewrite !Heq.
    split; [lia|]. split; [lia|]. split; [exact Hpre|].
    split; [|split; [intros H; lia | intros _; now split]].
    unfold Results._trim_key. rewrite Hlen, Hpre. reflexivity.
Qed.

Lemma trim_key_bounds_witness :
  Results._trim_key "reply_text" = "reply_text" /\
  (String.length
     (Results._trim_key "exemplar_list_size_for_the_few_shot_prompt") = 30 /\
   Results._trim_key "exemplar_list_size_for_the_few_shot_prompt"
   = substring 0 27 "exemplar_list_size_for_the_few_shot_prompt" ++ "...").
Proof.
  split.
  - apply (trim_key_bounds "reply_text"). simpl. lia.
  - apply (trim_key_bounds "exemplar_list_size_for_the_few_shot_prompt").
    simpl. lia.
Defined.



(** ** Compact records of onetwo/core/results.py *)

Lemma discard_is_del (d : Results.Dict) (key : string) :
  Results.discard d key = Results.dict_del key d.
Proof.
  unfold Results.discard.
  destruct (Results.dict_contains key d) eqn:E; [reflexivity|].
  unfold Results.dict_contains in E. unfold Results.dict_del.
  induction d as [|kv d IH]; [reflexivity|].
  simpl in E. apply orb_false_elim in E as [Hkv Hd].
  simpl. rewrite Hkv. simpl. now rewrite <- IH.
Qed.

(** Discarding keys one after the other keeps the entries whose key is none
    of them. *)
Lemma fold_discard_is_filter (keys : list string) :
  forall (d : Results.Dict),
    fold_left Results.discard keys d
    = filter (fun kv => negb (existsb (String.eqb (fst kv)) keys)) d.
Proof.
  induction keys as [|key keys IH]; intros d; cbn [fold_left].
  - simpl. induction d as [|kv d IHd]; [reflexivity|].
    simpl. now rewrite <- IHd.
  - rewrite IH, discard_is_del. unfold Results.dict_del.
    induction d as [|kv d IHd]; [reflexivity|].
    cbn [filter existsb].
    destruct (String.eqb (fst kv) key); simpl; [exact IHd|].
    destruct (existsb (String.eqb (fst kv)) keys); simpl; [exact IHd|].
    now rewrite IHd.
Qed.

Lemma existsb_eqb_In (key : string) (keys : list string) :
  existsb (String.eqb key) keys = true <-> In key keys.
Proof.
  rewrite existsb_exists. split.
  - intros (k & Hin & Heq). apply String.eqb_eq in Heq. now subst.
  - intros Hin. exists key. split; [exact Hin | apply String.eqb_refl].
Qed.

Lemma dict_contains_filtered (key : string) (keys : list string)
    (d : Results.Dict) :
  In key keys ->
  Results.dict_contains key
    (filter (fun kv => negb (existsb (String.eqb (fst kv)) keys)) d) = false.
Proof.
  intros Hin. unfold Results.dict_contains.
  induction d as [|kv d IH]; [reflexivity|].
  cbn [filter].
  destruct (existsb (String.eqb (fst kv)) keys) eqn:E; simpl; [exact IH|].
  rewrite IH, orb_false_r.
  destruct (String.eqb (fst kv) key) eqn:Ek; [|reflexivity].
  apply String.eqb_eq in Ek. subst key.
  apply existsb_eqb_In in Hin. rewrite Hin in E. discriminate E.
Qed.

Lemma dict_get_filtered (key : string) (keys : list string)
    (d : Results.Dict) :
  ~ In key keys ->
  Results.dict_get key
    (filter (fun kv => negb (existsb (String.eqb (fst kv)) keys)) d)
  = Results.dict_get key d.
Proof.
  intros Hout. unfold Results.dict_get.
  induction d as [|kv d IH]; [reflexivity|].
  cbn [filter find].
  destruct (String.eqb (fst kv) key) eqn:Ek.
  - apply String.eqb_eq in Ek.
    destruct (existsb (String.eqb (fst kv)) keys) eqn:E.
    + apply existsb_eqb_In in E. subst key. contradiction.
    + simpl. apply String.eqb_eq in Ek. now rewrite Ek.
  - destruct (existsb (String.eqb (fst kv)) keys); simpl;
      [exact IH | now rewrite Ek].
Qed.

Lemma filter_idempotent {A : Type} (p : A -> bool) (l : list A) :
  filter p (filter p l) = filter p l.
Proof.
  induction l as [|x l IH]; [reflexivity|].
  simpl. destruct (p x) eqn:E; [|exact IH]. simpl. now rewrite E, IH.
Qed.

(** X15. [to_compact_record] returns a record without stages in which the
    inputs hold none of the keys exemplar, original and record_id and the
    outputs do not hold the key values_for_list_metrics; every other key of
    the inputs and of the outputs keeps its value, the other fields are
    unchanged, and compacting a second time changes nothing. *)
Theorem to_compact_record_drops_only_the_bulky_fields :
  forall (self : Results.ExperimentResult),
    let compact := Results.to_compact_record self in
    Results.stages (Results.base compact) = [] /\
    (forall key,
       In key Results.input_fields_to_omit ->
       Results.dict_contains key (Results.inputs (Results.base compact))
       = false) /\
    (forall key,
       ~ In key Results.input_fields_to_omit ->
       Results.dict_get key (Results.inputs (Results.base compact))
       = Results.dict_get key (Results.inputs (Results.base self))) /\
    Results.dict_contains Results.VALUES_FOR_LIST_METRICS
      (Results.outputs (Results.base compact)) = false /\
    (forall key,
       key <> Results.VALUES_FOR_LIST_METRICS ->
       Results.dict_get key (Results.outputs (Results.base compact))
       = Results.dict_get key (Results.outputs (Results.base self))) /\
    (Results.stage_name (Results.base compact)
       = Results.stage_name (Results.base self) /\
     Results.error (Results.base compact) = Results.error (Results.base self) /\
     Results.info (Results.base compact) = Results.info (Results.base self) /\
     Results.targets compact = Results.targets self /\
     Results.metrics compact = Results.metrics self) /\
    Results.to_compact_record compact = compact.
Proof.
  intros self compact.
  unfold compact, Results.to_compact_record, Results.to_compact_record_in_order.
  cbn [Results.base Results.stages Results.inputs Results.outputs
       Results.stage_name Results.error Results.info Results.targets
       Results.metrics].
  rewrite !fold_discard_is_filter.
  split; [reflexivity|]. split; [|split; [|split; [|split; [|split]]]].
  - intros key Hin. now apply dict_contains_filtered.
  - intros key Hout. now apply dict_get_filtered.
  - apply dict_contains_filtered. now left.
  - intros key Hkey. apply dict_get_filtered. intros [H | []]. now subst.
  - now repeat split.
  - now rewrite !filter_idempotent.
Qed.

Lemma to_compact_record_drops_only_the_bulky_fields_witness :
  Results.dict_contains "exemplar"
    (Results.inputs
       (Results.base
          (Results.to_compact_record
             (Results.from_execution_result
                (Results.mkExecutionResult "" 
                   [("question", PyStr "How tall is K2?");
                    ("exemplar", PyObject "[...]");
                    ("record_id", PyInt 7)]
                   [("output", PyStr "8,611 m")]
                   [Results.mkExecutionResult "reply" [] [] [] "" []]
                   "" []))))) = false
  /\
  Results.dict_get "question"
    (Results.inputs
       (Results.base
          (Results.to_compact_record
             (Results.from_execution_result
                (Results.mkExecutionResult "" 
                   [("question", PyStr "How tall is K2?");
                    ("exemplar", PyObject "[...]");
                    ("record_id", PyInt 7)]
                   [("output", PyStr "8,611 m")]
                   [Results.mkExecutionResult "reply" [] [] [] "" []]
                   "" [])))))
  = Some (PyStr "How tall is K2?").
Proof.
  destruct (to_compact_record_drops_only_the_bulky_fields
              (Results.from_execution_result
                 (Results.mkExecutionResult "" 
                    [("question", PyStr "How tall is K2?");
                     ("exemplar", PyObject "[...]");
                     ("record_id", PyInt 7)]
                    [("output", PyStr "8,611 m")]
                    [Results.mkExecutionResult "reply" [] [] [] "" []]
                    "" [])))
    as (_ & Hdropped & Hkept & _).
  split.
  - apply Hdropped. left. reflexivity.
  - rewrite Hkept; [reflexivity|].
    intros [H | [H | [H | []]]]; discriminate H.
Defined.

(** X16. The result of [to_compact_record] does not depend on the order in
    which the keys of the two sets are visited, nor on repetitions: any two
    lists with the same elements give the same record. *)
Theorem to_compact_record_ignores_the_order_of_the_keys :
  forall (input_keys output_keys : list string)
         (self : Results.ExperimentResult),
    (forall key, In key input_keys <-> In key Results.input_fields_to_omit) ->
    (forall key, In key output_keys <-> In key Results.output_fields_to_omit) ->
    Results.to_compact_record_in_order input_keys output_keys self
    = Results.to_compact_record self.
Proof.
  intros input_keys output_keys self Hin Hout.
  unfold Results.to_compact_record, Results.to_compact_record_in_order.
  rewrite !fold_discard_is_filter.
  assert (Hsame : forall keys keys' (d : Results.Dict),
            (forall key, In key keys <-> In key keys') ->
            filter (fun kv => negb (existsb (String.eqb (fst kv)) keys)) d
            = filter (fun kv => negb (existsb (String.eqb (fst kv)) keys')) d).
  { intros keys keys' d Hkeys. apply filter_ext. intros kv. f_equal.
    apply eq_true_iff_eq. rewrite !existsb_eqb_In. apply Hkeys. }
  now rewrite (Hsame _ _ _ Hin), (Hsame _ _ _ Hout).
Qed.

Lemma to_compact_record_ignores_the_order_of_the_keys_witness :
  Results.to_compact_record_in_order
    ["record_id"; "exemplar"; "original"; "exemplar"]
    [Results.VALUES_FOR_LIST_METRICS]
    (Results.from_execution_result
       (Results.mkExecutionResult ""
          [("record_id", PyInt 7); ("question", PyStr "How tall is K2?")]
          [("values_for_list_metrics", PyObject "[...]");
           ("output", PyStr "8,611 m")]
          [] "" []))
  = Results.to_compact_record
      (Results.from_execution_result
         (Results.mkExecutionResult ""
            [("record_id", PyInt 7); ("question", PyStr "How tall is K2?")]
            [("values_for_list_metrics", PyObject "[...]");
             ("output", PyStr "8,611 m")]
            [] "" [])).
Proof.
  apply (to_compact_record_ignores_the_order_of_the_keys
           ["record_id"; "exemplar"; "original"; "exemplar"]
           [Results.VALUES_FOR_LIST_METRICS]
           (Results.from_execution_result
              (Results.mkExecutionResult ""
                 [("record_id", PyInt 7); ("question", PyStr "How tall is K2?")]
                 [("values_for_list_metrics", PyObject "[...]");
                  ("output", PyStr "8,611 m")]
                 [] "" []))).
  - intros key. simpl. tauto.
  - intros key. reflexivity.
Defined.
